(** * MAX messenger: the real-time relay of [server.ts]

    A shallow embedding of the WebSocket relay and of the message table of
    [server.ts]: the [clients] registry, the per-connection [userId], the
    ['message'] and ['close'] handlers, the [INSERT INTO messages] statement
    and the conversation query of [GET /api/messages/:otherId].

    What the source delegates to its libraries is kept apart from what it
    does itself.  [JSON.parse], [jwt.verify] and SQLite's conversion of text
    to an integer are the fields of the class [Libraries], over which the
    relay is parametric; the readings of the two clocks ([CURRENT_TIMESTAMP]
    in the table default, [new Date()] in the handler) are inputs of every
    inbound frame. *)

From Stdlib Require Import ZArith String Ascii List Lia Bool DecimalString.
From Stdlib Require Import Sorting.Sorted Sorting.Permutation.
From stdpp Require Import gmap strings list.

Local Open Scope Z_scope.

(** ** JavaScript values and exceptions *)

(** The values [JSON.parse] can produce, plus [undefined] for a property
    that is absent.  Numbers are restricted to integers: the identities the
    relay handles are row ids. *)
#[local] Unset Elimination Schemes.
Inductive value : Type :=
| Undefined
| Null
| Bool (b : bool)
| Num (n : Z)
| Str (s : string)
| Arr (items : list value)
| Obj (fields : list (string * value)).
#[local] Set Elimination Schemes.

Inductive exn : Type :=
| SyntaxError              (* JSON.parse on text that is not JSON *)
| TypeError                (* property of null, value that cannot be bound *)
| RangeError               (* too few or too many values for a statement *)
| SqliteError (code : string).

(** A call either returns or throws. *)
Inductive outcome (A : Type) : Type :=
| Returns (a : A)
| Throws (e : exn).
Arguments Returns {A} a.
Arguments Throws {A} e.

#[global] Instance outcome_bind : MBind outcome := fun A B k m =>
  match m with
  | Returns a => k a
  | Throws e => Throws e
  end.

Fixpoint own_property (fields : list (string * value)) (k : string) : value :=
  match fields with
  | [] => Undefined
  | (k', v) :: rest => if String.eqb k' k then v else own_property rest k
  end.

(** [v.k] for the property names the relay reads ([type], [token],
    [receiverId], [content], [id]): none of them is defined on the
    prototypes of strings, numbers, booleans or arrays. *)
Definition get (v : value) (k : string) : outcome value :=
  match v with
  | Undefined | Null => Throws TypeError
  | Obj fields => Returns (own_property fields k)
  | Bool _ | Num _ | Str _ | Arr _ => Returns Undefined
  end.

(** [v === 'lit'] *)
Definition strict_eq_str (v : value) (lit : string) : bool :=
  match v with
  | Str s => String.eqb s lit
  | _ => false
  end.

(** Truthiness of [userId : number | null]. *)
Definition truthy (userId : option Z) : bool :=
  match userId with
  | Some n => negb (n =? 0)
  | None => false
  end.

(** ** The database *)

Inductive sqlval : Type :=
| SqlNull
| SqlInteger (n : Z)
| SqlText (s : string).

(** A row of [messages].  [timestamp] is never given by the [INSERT]: it is
    always the text that [DEFAULT CURRENT_TIMESTAMP] produced. *)
Record message_row : Type := {
  id : Z;
  sender_id : sqlval;
  receiver_id : sqlval;
  content : sqlval;
  timestamp : string;
}.

(** The part of the database file the relay touches: the ids of the [users]
    rows (the target of both foreign keys), the [messages] rows in rowid
    order, the [sqlite_sequence] counter that AUTOINCREMENT keeps for
    [messages], and whether the connection enforces foreign keys. *)
Record database : Type := {
  users : gset Z;
  messages : list message_row;
  sqlite_sequence : Z;
  foreign_keys : bool;
}.

Definition max_rowid : Z := 9223372036854775807.

Definition largest_rowid (tbl : list message_row) : Z :=
  fold_right (fun r acc => Z.max (id r) acc) 0 tbl.

(** A JavaScript number made of a 64-bit integer, as the driver makes
    [info.lastInsertRowid] and the integer columns of a row it hands back:
    the nearest double, ties to the even mantissa.  Up to 2^53 in absolute
    value nothing is lost. *)
Definition js_number (n : Z) : Z :=
  let a := Z.abs n in
  if a <? 2 ^ 53 then n
  else
    let e := Z.log2 a - 52 in
    let q := Z.shiftr a e in
    let r := a - Z.shiftl q e in
    let half := 2 ^ (e - 1) in
    let q := if (half <? r) || ((r =? half) && Z.odd q) then q + 1 else q in
    Z.sgn n * Z.shiftl q e.

(** What the driver binds one value as: a number, a string, and NULL for
    both [null] and [undefined]; a boolean, and an array or an object in
    the place of a single value, is a TypeError. *)
Definition bind_value (v : value) : outcome sqlval :=
  match v with
  | Num n => Returns (SqlInteger n)
  | Str s => Returns (SqlText s)
  | Null | Undefined => Returns SqlNull
  | Bool _ | Arr _ | Obj _ => Throws TypeError
  end.

(** The arguments of [.run], [.get] and [.all], as the driver reads them:
    an array stands for its elements, one after the other, a plain object
    for named parameters, anything else for itself. *)
Inductive slot : Type :=
| Positional (v : value)
| Named.

Definition slots_of (arg : value) : list slot :=
  match arg with
  | Arr items => map Positional items
  | Obj _ => [Named]
  | v => [Positional v]
  end.

(** Binding left to right to the [n] anonymous parameters of a statement
    that has no named ones; [index] values are bound already.  One value
    too many, or too few at the end, is a RangeError, a second object of
    named parameters a TypeError. *)
Fixpoint bind_slots (n index : nat) (bound_object : bool) (slots : list slot)
  : outcome (list sqlval) :=
  match slots with
  | [] => if (index <? n)%nat then Throws RangeError else Returns []
  | Named :: rest =>
      if bound_object then Throws TypeError else bind_slots n index true rest
  | Positional v :: rest =>
      x ← bind_value v;
      if (n <=? index)%nat then Throws RangeError
      else
        xs ← bind_slots n (S index) bound_object rest;
        Returns (x :: xs)
  end.

Definition bind_arguments (n : nat) (args : list value) : outcome (list sqlval) :=
  bind_slots n 0 false (concat (map slots_of args)).

(** [FOREIGN KEY(c) REFERENCES users(id)]: NULL is not checked. *)
Definition references_user (ids : gset Z) (v : sqlval) : bool :=
  match v with
  | SqlNull => true
  | SqlInteger n => bool_decide (n ∈ ids)
  | SqlText _ => false
  end.

(** [=] in a WHERE clause: NULL equals nothing, and an integer never equals
    a text. *)
Definition sql_eq (a b : sqlval) : bool :=
  match a, b with
  | SqlInteger m, SqlInteger n => m =? n
  | SqlText s, SqlText t => String.eqb s t
  | _, _ => false
  end.

(** [ORDER BY timestamp ASC]: SQLite scans [messages] in rowid order and
    sorts on the key, comparing the texts bytewise; rows with equal keys
    come out in scan order. *)
Fixpoint insert_by_timestamp (r : message_row) (sorted : list message_row)
  : list message_row :=
  match sorted with
  | [] => [r]
  | r' :: rest =>
      if String.leb (timestamp r) (timestamp r') then r :: sorted
      else r' :: insert_by_timestamp r rest
  end.

Definition order_by_timestamp (rows : list message_row) : list message_row :=
  fold_right insert_by_timestamp [] rows.

(** The prepared statement of [GET /api/messages/:otherId]:
    [WHERE (sender_id = ? AND receiver_id = ?) OR (sender_id = ? AND
    receiver_id = ?) ORDER BY timestamp ASC]. *)
Definition in_conversation (p1 p2 p3 p4 : sqlval) (r : message_row) : bool :=
  (sql_eq (sender_id r) p1 && sql_eq (receiver_id r) p2)
  || (sql_eq (sender_id r) p3 && sql_eq (receiver_id r) p4).

Definition select_messages (p1 p2 p3 p4 : sqlval) (tbl : list message_row)
  : list message_row :=
  order_by_timestamp (List.filter (in_conversation p1 p2 p3 p4) tbl).

(** [.all(decoded.id, otherId, otherId, decoded.id)] for the user [a]
    asking for the conversation with [b]. *)
Definition history (a b : Z) (d : database) : list message_row :=
  select_messages (SqlInteger a) (SqlInteger b) (SqlInteger b) (SqlInteger a)
    (messages d).

(** ** The relay *)

(** A WebSocket object, by identity. *)
Definition conn : Type := nat.

Inductive ready_state : Type := CONNECTING | OPEN | CLOSING | CLOSED.

Definition is_open (s : ready_state) : bool :=
  match s with OPEN => true | _ => false end.

(** The two clock readings a send frame consumes: the text SQLite's
    [CURRENT_TIMESTAMP] evaluates to when the row is inserted, and the text
    [new Date().toISOString()] returns in the handler afterwards. *)
Record clock : Type := {
  CURRENT_TIMESTAMP : string;
  Date_toISOString : string;
}.

(** [savedMsg], the object pushed inside [{ type: 'message', message }]. *)
Record saved_message : Type := {
  msg_id : Z;
  msg_sender_id : Z;
  msg_receiver_id : value;
  msg_content : value;
  msg_timestamp : string;
}.

(** Calls the handlers make on sockets: [to.send(JSON.stringify({ type:
    'message', message }))] and [ws.close()]. *)
Inductive effect : Type :=
| Send (to : conn) (message : saved_message)
| CloseSocket (ws : conn).

(** The module-level state the handlers share. *)
Record globals : Type := {
  clients : gmap Z conn;
  db : database;
}.

(** What [wss.on('connection', (ws, req) => ...)] creates for one socket:
    the closure variable [userId] and the socket's own [readyState]. *)
Record session : Type := {
  userId : option Z;
  readyState : ready_state;
}.

(** The server process: the shared state and the live sessions by socket. *)
Record server : Type := {
  shared : globals;
  sessions : gmap conn session;
}.

(** What the transport delivers to the server. *)
Inductive event : Type :=
| Connection (ws : conn)
| Message (ws : conn) (data : string) (now : clock)
| Close (ws : conn).

Definition ready_state_of (ss : gmap conn session) (c : conn) : ready_state :=
  match ss !! c with
  | Some s => readyState s
  | None => CLOSED
  end.

Definition is_closed (s : ready_state) : bool :=
  match s with CLOSED => true | _ => false end.

Definition is_close_call (ws : conn) (e : effect) : bool :=
  match e with
  | CloseSocket c => Nat.eqb c ws
  | Send _ _ => false
  end.

(** What the relay takes from its libraries. *)
Class Libraries : Type := {
  (** [JSON.parse(data.toString())]: [None] when it throws, as it does on
      the empty text. *)
  JSON_parse : string -> option value;
  JSON_parse_empty : JSON_parse "" = None;
  (** [jwt.verify(token, JWT_SECRET)]: [None] when it throws; otherwise the
      [id] of the decoded payload, a number as [/api/signup] and
      [/api/login] sign it, or [None] when the payload has none. *)
  jwt_verify : value -> option (option Z);
  (** The conversion a column of INTEGER affinity applies to a text: the
      integer it denotes when it is a well-formed numeric literal. *)
  text_to_integer : string -> option Z;
  (** The text a column of TEXT affinity makes of a bound number. *)
  number_to_text : Z -> string;
}.

Section Relay.

Context {lib : Libraries}.

Definition text_affinity (v : sqlval) : sqlval :=
  match v with
  | SqlInteger n => SqlText (number_to_text n)
  | _ => v
  end.

Definition integer_affinity (v : sqlval) : sqlval :=
  match v with
  | SqlText s =>
      match text_to_integer s with
      | Some n => SqlInteger n
      | None => v
      end
  | _ => v
  end.

(** [db.prepare('INSERT INTO messages (sender_id, receiver_id, content)
    VALUES (?, ?, ?)').run(userId, receiverId, content)], returning the
    rowid of the new row.  The three bound values go to the three columns
    in order and take the affinity of their column.  The id is
    AUTOINCREMENT: one more than the largest rowid the table ever held,
    and the statement fails when that was the last one; the foreign keys
    are checked on the row once it has its id. *)
Definition insert_message (d : database) (userId : Z) (receiverId content : value)
    (now : string) : outcome (database * Z) :=
  bound ← bind_arguments 3 [Num userId; receiverId; content];
  match bound with
  | [sender; receiver; body] =>
      let sender := integer_affinity sender in
      let receiver := integer_affinity receiver in
      let body := text_affinity body in
      let last := Z.max (sqlite_sequence d) (largest_rowid (messages d)) in
      if max_rowid <=? last then Throws (SqliteError "SQLITE_FULL")
      else if foreign_keys d
              && negb (references_user (users d) sender
                       && references_user (users d) receiver)
      then Throws (SqliteError "SQLITE_CONSTRAINT_FOREIGNKEY")
      else
        let rowid := last + 1 in
        let row := {| id := rowid; sender_id := sender; receiver_id := receiver;
                      content := body; timestamp := now |} in
        Returns ({| users := users d;
                    messages := (messages d ++ [row])%list;
                    sqlite_sequence := rowid;
                    foreign_keys := foreign_keys d |}, rowid)
  | _ => Throws RangeError
  end.

(** [clients.get(receiverId)]: the keys of [clients] are numbers. *)
Definition clients_get (m : gmap Z conn) (key : value) : option conn :=
  match key with
  | Num n => m !! n
  | _ => None
  end.

(** The [try] block of the auth branch; a throw inside it is caught. *)
Definition verify (message : value) : outcome (option Z) :=
  token ← get message "token";
  match jwt_verify token with
  | Some decoded_id => Returns decoded_id
  | None => Throws TypeError
  end.

(** [ws.on('message', (data) => ...)] of the connection [ws], whose closure
    variable is [userId].  [readyState] reads the state of a socket. *)
Definition on_message (readyState : conn -> ready_state) (ws : conn)
    (data : string) (now : clock) (userId : option Z) (g : globals)
  : outcome (option Z * globals * list effect) :=
  match JSON_parse data with
  | None => Throws SyntaxError
  | Some message =>
      type ← get message "type";
      if strict_eq_str type "auth" then
        match verify message with
        | Returns decoded_id =>
            let userId := decoded_id in
            match userId with
            | Some u =>
                if truthy userId
                then Returns (userId, {| clients := <[u := ws]> (clients g);
                                         db := db g |}, [])
                else Returns (userId, g, [])
            | None => Returns (userId, g, [])
            end
        | Throws _ => Returns (userId, g, [CloseSocket ws])
        end
      else if strict_eq_str type "message" && truthy userId then
        match userId with
        | Some u =>
            receiverId ← get message "receiverId";
            content ← get message "content";
            '(d, rowid) ← insert_message (db g) u receiverId content
                             (CURRENT_TIMESTAMP now);
            let savedMsg := {| msg_id := js_number rowid;
                               msg_sender_id := u;
                               msg_receiver_id := receiverId;
                               msg_content := content;
                               msg_timestamp := Date_toISOString now |} in
            let to_receiver :=
              match clients_get (clients g) receiverId with
              | Some receiverWs =>
                  if is_open (readyState receiverWs)
                  then [Send receiverWs savedMsg] else []
              | None => []
              end in
            Returns (userId, {| clients := clients g; db := d |},
                     (to_receiver ++ [Send ws savedMsg])%list)
        | None => Returns (userId, g, [])
        end
      else Returns (userId, g, [])
  end.

(** [ws.on('close', () => { if (userId) clients.delete(userId); })] *)
Definition on_close (userId : option Z) (g : globals) : globals :=
  match userId with
  | Some u =>
      if truthy userId
      then {| clients := delete u (clients g); db := db g |}
      else g
  | None => g
  end.

(** The answer of [GET /api/messages/:otherId]. *)
Inductive response : Type :=
| Status401 (error : string)
| Json (rows : list message_row).

(** [decoded.id]: the number of the payload, or [undefined]. *)
Definition decoded_id_value (decoded_id : option Z) : value :=
  match decoded_id with
  | Some n => Num n
  | None => Undefined
  end.

(** A row as the driver hands it to JavaScript: its integers are numbers. *)
Definition js_integer (v : sqlval) : sqlval :=
  match v with
  | SqlInteger n => SqlInteger (js_number n)
  | _ => v
  end.

Definition js_message (r : message_row) : message_row :=
  {| id := js_number (id r); sender_id := js_integer (sender_id r);
     receiver_id := js_integer (receiver_id r); content := content r;
     timestamp := timestamp r |}.

(** [app.get('/api/messages/:otherId', ...)], given what
    [req.headers.authorization?.split(' ')[1]] evaluates to and the text of
    [req.params.otherId].  The four values are compared with columns of
    INTEGER affinity, which converts a text as an inserted one would be; a
    payload without [id] binds NULL, which equals no column. *)
Definition get_api_messages (token : option string) (otherId : string)
    (d : database) : response :=
  match token with
  | None => Status401 "Unauthorized"
  | Some t =>
      if String.eqb t "" then Status401 "Unauthorized"
      else
        match jwt_verify (Str t) with
        | Some decoded_id =>
            match bind_arguments 4 [decoded_id_value decoded_id; Str otherId;
                                    Str otherId; decoded_id_value decoded_id] with
            | Returns [p1; p2; p3; p4] =>
                Json (map js_message
                        (select_messages (integer_affinity p1)
                           (integer_affinity p2) (integer_affinity p3)
                           (integer_affinity p4) (messages d)))
            | _ => Status401 "Invalid token"
            end
        | None => Status401 "Invalid token"
        end
  end.

(** One transport event.  A socket emits ['message'] until it is closed and
    ['close'] once; [ws.close()] leaves the socket CLOSING until the
    transport reports the close. *)
Definition step (σ : server) (e : event) : outcome (server * list effect) :=
  match e with
  | Connection ws =>
      match sessions σ !! ws with
      | Some _ => Returns (σ, [])
      | None =>
          Returns ({| shared := shared σ;
                      sessions := <[ws := {| userId := None; readyState := OPEN |}]>
                                    (sessions σ) |}, [])
      end
  | Message ws data now =>
      match sessions σ !! ws with
      | Some s =>
          if is_closed (readyState s) then Returns (σ, [])
          else
            '(u, g, effects) ← on_message (ready_state_of (sessions σ)) ws data
                                 now (userId s) (shared σ);
            let state := if existsb (is_close_call ws) effects then CLOSING
                         else readyState s in
            Returns ({| shared := g;
                        sessions := <[ws := {| userId := u; readyState := state |}]>
                                      (sessions σ) |}, effects)
      | None => Returns (σ, [])
      end
  | Close ws =>
      match sessions σ !! ws with
      | Some s =>
          if is_closed (readyState s) then Returns (σ, [])
          else
            Returns ({| shared := on_close (userId s) (shared σ);
                        sessions := <[ws := {| userId := userId s;
                                               readyState := CLOSED |}]>
                                      (sessions σ) |}, [])
      | None => Returns (σ, [])
      end
  end.

(** A sequence of events, up to the first uncaught exception. *)
Fixpoint run (σ : server) (events : list event)
  : server * list effect * option exn :=
  match events with
  | [] => (σ, [], None)
  | e :: rest =>
      match step σ e with
      | Returns (σ', effects) =>
          let '(σ'', effects', raised) := run σ' rest in
          (σ'', (effects ++ effects')%list, raised)
      | Throws x => (σ, [], Some x)
      end
  end.

End Relay.

(** The server at start-up, on a database file [d]. *)
Definition boot (d : database) : server :=
  {| shared := {| clients := ∅; db := d |}; sessions := ∅ |}.

(** The database file right after [CREATE TABLE IF NOT EXISTS] created the
    tables, with the accounts [ids] signed up since. *)
Definition created (ids : gset Z) (enforce : bool) : database :=
  {| users := ids; messages := []; sqlite_sequence := 0;
     foreign_keys := enforce |}.

(** ** A concrete environment

    An instance of [Libraries] on which scenarios are run: a parser that
    knows the frames below and no other text, a verifier that accepts the
    tokens of the users 1 and 2, and the decimal reading of a text. *)
Module Sample.

Definition q : string := String (ascii_of_nat 34) EmptyString.

Definition quoted (s : string) : string := (q ++ s ++ q)%string.

(** [{"type":"auth","token":"<token>"}] *)
Definition auth_text (token : string) : string :=
  ("{" ++ quoted "type" ++ ":" ++ quoted "auth" ++ ","
       ++ quoted "token" ++ ":" ++ quoted token ++ "}")%string.

Definition auth_value (token : string) : value :=
  Obj [("type", Str "auth"); ("token", Str token)].

(** [{"type":"message","receiverId":2,"content":"<content>"}] *)
Definition send_text (content : string) : string :=
  ("{" ++ quoted "type" ++ ":" ++ quoted "message" ++ ","
       ++ quoted "receiverId" ++ ":2,"
       ++ quoted "content" ++ ":" ++ quoted content ++ "}")%string.

Definition send_value (content : string) : value :=
  Obj [("type", Str "message"); ("receiverId", Num 2); ("content", Str content)].

(** [{"type":"message","receiverId":2}] *)
Definition send_text_no_content : string :=
  ("{" ++ quoted "type" ++ ":" ++ quoted "message" ++ ","
       ++ quoted "receiverId" ++ ":2}")%string.

Definition send_value_no_content : value :=
  Obj [("type", Str "message"); ("receiverId", Num 2)].

(** [{"type":"ping"}] *)
Definition ping_text : string :=
  ("{" ++ quoted "type" ++ ":" ++ quoted "ping" ++ "}")%string.

Definition known_frames : list (string * value) :=
  [ (auth_text "token-of-1", auth_value "token-of-1");
    (auth_text "token-of-2", auth_value "token-of-2");
    (auth_text "forged", auth_value "forged");
    (send_text "", send_value "");
    (send_text "hi", send_value "hi");
    (send_text_no_content, send_value_no_content);
    (ping_text, Obj [("type", Str "ping")]);
    ("null", Null) ].

Fixpoint assoc (table : list (string * value)) (s : string) : option value :=
  match table with
  | [] => None
  | (k, v) :: rest => if String.eqb k s then Some v else assoc rest s
  end.

Definition parse (data : string) : option value := assoc known_frames data.

Definition verify_token (token : value) : option (option Z) :=
  match token with
  | Str "token-of-1" => Some (Some 1)
  | Str "token-of-2" => Some (Some 2)
  | _ => None
  end.

Fixpoint digits (s : string) (acc : Z) : option Z :=
  match s with
  | EmptyString => Some acc
  | String c rest =>
      let n := Z.of_nat (nat_of_ascii c) in
      if (48 <=? n) && (n <=? 57) then digits rest (10 * acc + (n - 48))
      else None
  end.

Definition decimal (s : string) : option Z :=
  match s with
  | EmptyString => None
  | String c rest =>
      if Ascii.eqb c "-"
      then match rest with
           | EmptyString => None
           | _ => option_map Z.opp (digits rest 0)
           end
      else digits s 0
  end.

(** The text of a small integer bound as a number: [2] reads ["2.0"]. *)
Definition number_text (n : Z) : string :=
  (NilZero.string_of_int (Z.to_int n) ++ ".0")%string.

Definition libraries : Libraries :=
  {| JSON_parse := parse; JSON_parse_empty := eq_refl;
     jwt_verify := verify_token; text_to_integer := decimal;
     number_to_text := number_text |}.

Definition step := step (lib := libraries).
Definition run := run (lib := libraries).
Definition on_message := on_message (lib := libraries).

(** A second-resolution table default and a millisecond ISO reading of the
    same instant. *)
Definition noon : clock :=
  {| CURRENT_TIMESTAMP := "2024-05-01 12:00:00";
     Date_toISOString := "2024-05-01T12:00:00.250Z" |}.

Definition two_users : server := boot (created {[1; 2]} true).

Definition one_user : server := boot (created {[1]} true).

(** [two_users] once the sockets 0 and 1 have connected. *)
Definition two_sockets : server :=
  (run two_users [Connection 0%nat; Connection 1%nat]).1.1.

Definition fresh_session : session := {| userId := None; readyState := OPEN |}.

(** [savedMsg] of the first message of user 1 to user 2 at [noon]. *)
Definition first_message (text : string) : saved_message :=
  {| msg_id := 1; msg_sender_id := 1; msg_receiver_id := Num 2;
     msg_content := Str text; msg_timestamp := "2024-05-01T12:00:00.250Z" |}.

(** A table where the users 1 and 2 exchanged three messages, two of them
    within the same second, and user 1 wrote once to user 3. *)
Definition row (i sender receiver : Z) (text at_ : string) : message_row :=
  {| id := i; sender_id := SqlInteger sender; receiver_id := SqlInteger receiver;
     content := SqlText text; timestamp := at_ |}.

Definition chat : database :=
  {| users := {[1; 2; 3]};
     messages := [ row 1 1 2 "hi" "2024-05-01 12:00:07";
                   row 2 2 1 "hello" "2024-05-01 12:00:09";
                   row 3 1 3 "lunch?" "2024-05-01 12:00:09";
                   row 4 1 2 "how are you" "2024-05-01 12:00:09" ];
     sqlite_sequence := 4;
     foreign_keys := true |}.

End Sample.

(** ** Orders and shapes the properties speak about *)

(** Table order of [messages]: by rowid, strictly. *)
Definition by_rowid (r r' : message_row) : Prop := id r < id r'.

(** Conversation order: by timestamp, and by id between equal timestamps. *)
Definition earlier (r r' : message_row) : Prop :=
  String.ltb (timestamp r) (timestamp r') = true
  \/ (timestamp r = timestamp r' /\ id r < id r').

(** [r] was sent by one of [a], [b] to the other. *)
Definition exchanged (a b : Z) (r : message_row) : Prop :=
  (sender_id r = SqlInteger a /\ receiver_id r = SqlInteger b)
  \/ (sender_id r = SqlInteger b /\ receiver_id r = SqlInteger a).

Section Frames.

Context {lib : Libraries}.

(** [data] is the text of a frame whose [type] is strictly the string [ty]. *)
Definition frame_of_type (data ty : string) (message : value) : Prop :=
  JSON_parse data = Some message
  /\ exists t, get message "type" = Returns t /\ strict_eq_str t ty = true.

(** [{ type: "auth", token }] *)
Definition auth_frame (data : string) (token : value) : Prop :=
  exists message,
    frame_of_type data "auth" message /\ get message "token" = Returns token.

(** [{ type: "message", receiverId, content }] *)
Definition send_frame (data : string) (receiverId content : value) : Prop :=
  exists message,
    frame_of_type data "message" message
    /\ get message "receiverId" = Returns receiverId
    /\ get message "content" = Returns content.

End Frames.

(** ** Accounts

    The [users] table and the three routes that read and write it:
    [POST /api/signup], [POST /api/login] and [GET /api/users]. *)

Module Users.

(** A row of [users].  [username] is what TEXT affinity made of the bound
    value; [password] and [avatar] are always the texts the signup route
    computed. *)
Record row : Type := {
  id : Z;
  username : sqlval;
  password : string;
  avatar : string;
}.

(** The table in rowid order, with its AUTOINCREMENT counter. *)
Record table : Type := {
  rows : list row;
  sqlite_sequence : Z;
}.

Definition largest_rowid (tbl : list row) : Z :=
  fold_right (fun r acc => Z.max (id r) acc) 0 tbl.

Definition empty : table := {| rows := []; sqlite_sequence := 0 |}.

End Users.

(** What the account routes take from their libraries. *)
Class Credentials : Type := {
  (** [bcrypt.hashSync(password, 10)] with the salt it drew: [None] when it
      throws (a password that is not a string). *)
  bcrypt_hashSync : string -> value -> option string;
  (** [bcrypt.compareSync(password, hash)]: [None] when it throws. *)
  bcrypt_compareSync : value -> string -> option bool;
  (** [jwt.sign({ id, username }, JWT_SECRET)] at the time [iat], which the
      library writes into the token. *)
  jwt_sign : Z -> Z -> value -> string;
  (** The text a template literal makes of a value. *)
  template_text : value -> string;
}.

(** What [/api/signup] and [/api/login] answer. *)
Inductive auth_response : Type :=
| Status (code : nat) (error : string)
| Authenticated (token : string) (id : Z) (username : value) (avatar : string).

(** What [/api/users] answers: an error, or [id, username, avatar] of the
    selected rows. *)
Inductive users_response : Type :=
| UsersStatus (code : nat) (error : string)
| UsersJson (listed : list (Z * sqlval * string)).

(** A column value as the driver hands it back. *)
Definition js_of_sql (v : sqlval) : value :=
  match v with
  | SqlNull => Null
  | SqlInteger n => Num (js_number n)
  | SqlText s => Str s
  end.

(** [!v] is false. *)
Definition truthy_value (v : value) : bool :=
  match v with
  | Undefined | Null => false
  | Bool b => b
  | Num n => negb (n =? 0)
  | Str s => negb (String.eqb s "")
  | Arr _ | Obj _ => true
  end.

Section Accounts.

Context {lib : Libraries} {cred : Credentials}.

(** [username TEXT UNIQUE]: NULL collides with nothing. *)
Definition username_taken (tbl : list Users.row) (name : sqlval) : bool :=
  existsb (fun r => sql_eq (Users.username r) name) tbl.

(** [db.prepare('INSERT INTO users (username, password, avatar) VALUES
    (?, ?, ?)').run(username, hashedPassword, avatar)], returning the rowid
    of the new row.  [hashedPassword] and [avatar] are strings. *)
Definition insert_user (t : Users.table) (username : value)
    (hashedPassword avatar : string) : outcome (Users.table * Z) :=
  bound ← bind_arguments 3 [username; Str hashedPassword; Str avatar];
  match bound with
  | [name; SqlText hashed; SqlText picture] =>
      let name := text_affinity name in
      let last := Z.max (Users.sqlite_sequence t)
                    (Users.largest_rowid (Users.rows t)) in
      if max_rowid <=? last then Throws (SqliteError "SQLITE_FULL")
      else if username_taken (Users.rows t) name
      then Throws (SqliteError "SQLITE_CONSTRAINT_UNIQUE")
      else
        let rowid := last + 1 in
        Returns ({| Users.rows := Users.rows t ++
                      [{| Users.id := rowid; Users.username := name;
                          Users.password := hashed;
                          Users.avatar := picture |}];
                    Users.sqlite_sequence := rowid |}, rowid)
  | _ => Throws RangeError
  end.

(** [app.post('/api/signup', ...)] of the first revision of [server.ts], on
    the body [{ username, password }]; [salt] is what [hashSync] drew and
    [iat] the time of the request.  Whatever is thrown inside the [try] is
    answered with the same 400. *)
Definition signup (username password : value) (salt : string) (iat : Z)
    (t : Users.table) : Users.table * auth_response :=
  match bcrypt_hashSync salt password with
  | None => (t, Status 400 "Username already exists")
  | Some hashedPassword =>
      let avatar := ("https://api.dicebear.com/7.x/avataaars/svg?seed="
                       ++ template_text username)%string in
      match insert_user t username hashedPassword avatar with
      | Returns (t', rowid) =>
          let lastInsertRowid := js_number rowid in
          (t', Authenticated (jwt_sign iat lastInsertRowid username)
                 lastInsertRowid username avatar)
      | Throws _ => (t, Status 400 "Username already exists")
      end
  end.

(** [app.post(['/api/signup', '/api/signup/'], ...)] of the second
    revision of [server.ts]: a falsy username or password is refused first,
    and what is thrown is answered 400 only under the code
    ['SQLITE_CONSTRAINT'], 500 otherwise. *)
Definition signup_2 (username password : value) (salt : string) (iat : Z)
    (t : Users.table) : Users.table * auth_response :=
  if negb (truthy_value username) || negb (truthy_value password)
  then (t, Status 400 "Username and password are required")
  else
    let failed (e : exn) :=
      match e with
      | SqliteError code =>
          if String.eqb code "SQLITE_CONSTRAINT"
          then Status 400 "Это имя пользователя уже занято"
          else Status 500 "Ошибка сервера при регистрации"
      | _ => Status 500 "Ошибка сервера при регистрации"
      end in
    match bcrypt_hashSync salt password with
    | None => (t, failed TypeError)
    | Some hashedPassword =>
        let avatar := ("https://api.dicebear.com/7.x/avataaars/svg?seed="
                         ++ template_text username)%string in
        match insert_user t username hashedPassword avatar with
        | Returns (t', rowid) =>
            let userId := js_number rowid in
            (t', Authenticated (jwt_sign iat userId username) userId username
                   avatar)
        | Throws e => (t, failed e)
        end
    end.

(** [db.prepare('SELECT * FROM users WHERE username = ?').get(username)] *)
Definition select_user (t : Users.table) (username : value)
  : outcome (option Users.row) :=
  bound ← bind_arguments 1 [username];
  match bound with
  | [name] =>
      Returns (List.find (fun r => sql_eq (Users.username r) (text_affinity name))
                 (Users.rows t))
  | _ => Throws RangeError
  end.

(** What both revisions of [/api/login] do with the body at the time
    [iat], [unauthorized] being the text of the 401. *)
Definition login_with (unauthorized : string) (username password : value)
    (iat : Z) (t : Users.table) : outcome auth_response :=
  found ← select_user t username;
  match found with
  | Some user =>
      match bcrypt_compareSync password (Users.password user) with
      | None => Throws TypeError
      | Some true =>
          let id := js_number (Users.id user) in
          let name := js_of_sql (Users.username user) in
          Returns (Authenticated (jwt_sign iat id name) id name
                     (Users.avatar user))
      | Some false => Returns (Status 401 unauthorized)
      end
  | None => Returns (Status 401 unauthorized)
  end.

(** [app.post('/api/login', ...)] of the first revision of [server.ts]:
    nothing is caught here. *)
Definition login (username password : value) (iat : Z) (t : Users.table)
  : outcome auth_response :=
  login_with "Invalid credentials" username password iat t.

(** [app.post(['/api/login', '/api/login/'], ...)] of the second revision:
    what is thrown is answered 500. *)
Definition login_2 (username password : value) (iat : Z) (t : Users.table)
  : auth_response :=
  match login_with "Неверное имя пользователя или пароль" username password
          iat t with
  | Returns answer => answer
  | Throws _ => Status 500 "Ошибка сервера при входе"
  end.

(** [app.get('/api/users', ...)], given what
    [req.headers.authorization?.split(' ')[1]] evaluates to:
    [SELECT id, username, avatar FROM users WHERE id != ?].  A payload
    without [id] binds NULL, from which no id is known to differ. *)
Definition get_api_users (token : option string) (t : Users.table)
  : users_response :=
  match token with
  | None => UsersStatus 401 "Unauthorized"
  | Some tok =>
      if String.eqb tok "" then UsersStatus 401 "Unauthorized"
      else
        match jwt_verify (Str tok) with
        | Some decoded_id =>
            match bind_arguments 1 [decoded_id_value decoded_id] with
            | Returns [SqlInteger n] =>
                UsersJson
                  (map (fun r => (js_number (Users.id r), Users.username r,
                                  Users.avatar r))
                     (List.filter (fun r => negb (Users.id r =? n))
                        (Users.rows t)))
            | Returns _ => UsersJson []
            | Throws _ => UsersStatus 401 "Invalid token"
            end
        | None => UsersStatus 401 "Invalid token"
        end
  end.

(** A sequence of signup requests. *)
Fixpoint signups (requests : list (value * value * string * Z))
    (t : Users.table) : Users.table :=
  match requests with
  | [] => t
  | (username, password, salt, iat) :: rest =>
      signups rest (signup username password salt iat t).1
  end.

End Accounts.

(** ** The client's view of a conversation *)

(** The updater that [socket.onmessage] of [App.tsx] passes to
    [setMessages] for a frame of type ['message']: a message whose id is
    already shown is dropped. *)
Definition socket_onmessage (prev : list saved_message) (msg : saved_message)
  : list saved_message :=
  if existsb (fun m => msg_id m =? msg_id msg) prev then prev
  else prev ++ [msg].

(** The messages a list of calls pushes to the socket [c], in order. *)
Definition pushed_to (c : conn) (effects : list effect) : list saved_message :=
  omap (fun e => match e with
                 | Send to m => if Nat.eqb to c then Some m else None
                 | CloseSocket _ => None
                 end) effects.

(** Usernames of a table are pairwise different, NULL apart. *)
Definition usernames_unique (tbl : list Users.row) : Prop :=
  forall i j r r' s,
    tbl !! i = Some r -> tbl !! j = Some r' ->
    Users.username r = SqlText s -> Users.username r' = SqlText s -> i = j.

(** A concrete instance of [Credentials]: a hash that keeps the password
    after the salt, tokens named after the id as [Sample.verify_token]
    reads them, and the template text of a value. *)
Module SampleAccounts.

Definition decimal (n : Z) : string := NilZero.string_of_int (Z.to_int n).

Definition hashSync (salt : string) (password : value) : option string :=
  match password with
  | Str p => Some ("$2a$10$" ++ salt ++ "." ++ p)%string
  | _ => None
  end.

Definition ends_with (suffix s : string) : bool :=
  (String.length suffix <=? String.length s)%nat
  && String.eqb (substring (String.length s - String.length suffix)
                   (String.length suffix) s) suffix.

Definition compareSync (password : value) (hash : string) : option bool :=
  match password with
  | Str p => Some (ends_with ("." ++ p)%string hash)
  | _ => None
  end.

Definition sign (iat id : Z) (username : value) : string :=
  ("token-of-" ++ decimal id)%string.

Fixpoint template (v : value) : string :=
  match v with
  | Undefined => "undefined"
  | Null => "null"
  | Bool true => "true"
  | Bool false => "false"
  | Num n => decimal n
  | Str s => s
  | Arr items =>
      (fix join (l : list value) : string :=
         match l with
         | [] => ""
         | x :: rest =>
             let text := match x with
                         | Undefined | Null => ""
                         | _ => template x
                         end in
             match rest with
             | [] => text
             | _ :: _ => text ++ "," ++ join rest
             end
         end) items
  | Obj _ => "[object Object]"
  end%string.

Definition credentials : Credentials :=
  {| bcrypt_hashSync := hashSync; bcrypt_compareSync := compareSync;
     jwt_sign := sign; template_text := template |}.

Definition signup := signup (lib := Sample.libraries) (cred := credentials).
Definition login := login (lib := Sample.libraries) (cred := credentials).

(** The table after [alice] and [bob] signed up. *)
Definition two_accounts : Users.table :=
  signups (lib := Sample.libraries) (cred := credentials)
    [(Str "alice", Str "wonderland", "salt-a"%string, 1714564800);
     (Str "bob", Str "builder", "salt-b"%string, 1714564801)] Users.empty.

End SampleAccounts.

(** * Properties *)

(** ** Bytewise order of timestamps *)

Section TimestampOrder.

Lemma ascii_compare_spec (a b : ascii) :
  CompareSpec (a = b) (N_of_ascii a < N_of_ascii b)%N
    (N_of_ascii b < N_of_ascii a)%N (Ascii.compare a b).
Proof.
  unfold Ascii.compare.
  destruct (N.compare_spec (N_of_ascii a) (N_of_ascii b)) as [E | L | G];
    constructor; try assumption.
  rewrite <- (ascii_N_embedding a), <- (ascii_N_embedding b). now rewrite E.
Qed.

Lemma string_compare_refl (s : string) : String.compare s s = Eq.
Proof.
  induction s as [| c s IH]; simpl; [reflexivity |].
  destruct (ascii_compare_spec c c); try lia. exact IH.
Qed.

Lemma string_compare_trans (c : comparison) :
  c <> Eq ->
  forall s t u, String.compare s t = c -> String.compare t u = c ->
                String.compare s u = c.
Proof.
  intros Hc. induction s as [| a s IH]; intros [| b t] [| d u]; simpl;
    try (intros; congruence).
  destruct (ascii_compare_spec a b) as [E1 | L1 | G1];
    destruct (ascii_compare_spec b d) as [E2 | L2 | G2];
    destruct (ascii_compare_spec a d) as [E3 | L3 | G3];
    subst; intros H1 H2; try congruence; try lia; eauto.
Qed.

Lemma leb_trans (s t u : string) :
  String.leb s t = true -> String.leb t u = true -> String.leb s u = true.
Proof.
  unfold String.leb.
  destruct (String.compare s t) eqn:E1; try discriminate;
    destruct (String.compare t u) eqn:E2; try discriminate; intros _ _.
  - apply String.compare_eq_iff in E1, E2. subst. now rewrite string_compare_refl.
  - apply String.compare_eq_iff in E1. subst. now rewrite E2.
  - apply String.compare_eq_iff in E2. subst. now rewrite E1.
  - now rewrite (string_compare_trans Lt ltac:(discriminate) s t u E1 E2).
Qed.

Lemma leb_false_ltb (s t : string) :
  String.leb s t = false -> String.ltb t s = true.
Proof.
  unfold String.leb, String.ltb. rewrite (String.compare_antisym t s).
  destruct (String.compare s t); simpl; congruence.
Qed.

Lemma leb_cases (s t : string) :
  String.leb s t = true -> String.ltb s t = true \/ s = t.
Proof.
  unfold String.leb, String.ltb.
  destruct (String.compare s t) eqn:E; try discriminate; intros _; auto.
  right. now apply String.compare_eq_iff.
Qed.

Lemma ltb_leb (s t : string) :
  String.ltb s t = true -> String.leb s t = true.
Proof.
  unfold String.leb, String.ltb. destruct (String.compare s t); congruence.
Qed.

End TimestampOrder.

(** ** Ids as JavaScript numbers *)

Section Numbers.

(** An integer of at most 53 bits is its own JavaScript number. *)
Lemma js_number_exact (n : Z) :
  - 2 ^ 53 <= n <= 2 ^ 53 -> js_number n = n.
Proof.
  intros Hn. unfold js_number.
  destruct (Z.ltb_spec (Z.abs n) (2 ^ 53)) as [_ | Hge]; [reflexivity |].
  change (2 ^ 53) with 9007199254740992 in *.
  assert (n = 9007199254740992 \/ n = - 9007199254740992) as [-> | ->] by lia;
    reflexivity.
Qed.

(** A positive integer stays positive. *)
Lemma js_number_pos (n : Z) : 0 < n -> 0 < js_number n.
Proof.
  intros Hn. unfold js_number.
  destruct (Z.ltb_spec (Z.abs n) (2 ^ 53)) as [_ | Hge]; [exact Hn |].
  rewrite (Z.abs_eq n) in * by lia. rewrite (Z.sgn_pos n Hn), Z.mul_1_l.
  assert (He : 1 <= Z.log2 n - 52).
  { pose proof (Z.log2_le_mono _ _ Hge) as H.
    rewrite (Z.log2_pow2 53) in H by lia. lia. }
  set (e := Z.log2 n - 52) in *.
  assert (Hq : 1 <= Z.shiftr n e).
  { rewrite Z.shiftr_div_pow2 by lia.
    apply Z.div_le_lower_bound; [apply Z.pow_pos_nonneg; lia |].
    rewrite Z.mul_1_r. transitivity (2 ^ Z.log2 n).
    - apply Z.pow_le_mono_r; lia.
    - apply Z.log2_spec. exact Hn. }
  rewrite Z.shiftl_mul_pow2 by lia.
  apply Z.mul_pos_pos; [| apply Z.pow_pos_nonneg; lia].
  destruct (_ || _); lia.
Qed.

End Numbers.

(** ** The conversation query *)

Section History.

Lemma sql_eq_integer (v : sqlval) (n : Z) :
  sql_eq v (SqlInteger n) = true <-> v = SqlInteger n.
Proof.
  destruct v as [| m | t]; simpl; split; try congruence.
  - intros H. apply Z.eqb_eq in H. now subst.
  - intros [= ->]. apply Z.eqb_refl.
Qed.

Lemma in_conversation_exchanged (a b : Z) (r : message_row) :
  in_conversation (SqlInteger a) (SqlInteger b) (SqlInteger b) (SqlInteger a) r
    = true <-> exchanged a b r.
Proof.
  unfold in_conversation, exchanged.
  rewrite orb_true_iff, !andb_true_iff, !sql_eq_integer. reflexivity.
Qed.

Lemma insert_by_timestamp_perm (r : message_row) (l : list message_row) :
  insert_by_timestamp r l ≡ₚ r :: l.
Proof.
  induction l as [| r' l IH]; simpl; [reflexivity |].
  destruct (String.leb (timestamp r) (timestamp r')); [reflexivity |].
  rewrite IH. apply perm_swap.
Qed.

Lemma order_by_timestamp_perm (l : list message_row) :
  order_by_timestamp l ≡ₚ l.
Proof.
  induction l as [| r l IH]; simpl; [reflexivity |].
  rewrite insert_by_timestamp_perm. now rewrite IH.
Qed.

Lemma earlier_leb (r r' : message_row) :
  earlier r r' -> String.leb (timestamp r) (timestamp r') = true.
Proof.
  intros [L | [E _]]; [now apply ltb_leb |].
  rewrite E. unfold String.leb. now rewrite string_compare_refl.
Qed.

(** A row that precedes, in the table, every row of a sorted conversation
    is inserted at its place in conversation order. *)
Lemma insert_by_timestamp_sorted (r : message_row) (l : list message_row) :
  StronglySorted earlier l ->
  Forall (by_rowid r) l ->
  StronglySorted earlier (insert_by_timestamp r l).
Proof.
  induction 1 as [| r' l Hs IH Hr']; intros Hid; simpl.
  - repeat constructor.
  - inversion Hid as [| ? ? Hid1 Hid2]; subst.
    destruct (String.leb (timestamp r) (timestamp r')) eqn:E.
    + constructor; [now constructor |].
      assert (Hall : Forall (fun x => String.leb (timestamp r) (timestamp x) = true)
                       (r' :: l)).
      { constructor; [exact E |].
        eapply Forall_impl; [exact Hr' |]. intros x Hx. simpl.
        eapply leb_trans; [exact E | now apply earlier_leb]. }
      rewrite Forall_forall in Hall, Hid |- *.
      intros x Hx. destruct (leb_cases _ _ (Hall x Hx)) as [L | Eq];
        [now left | right; split; [exact Eq | exact (Hid x Hx)]].
    + constructor; [now apply IH |].
      rewrite (insert_by_timestamp_perm r l).
      constructor; [| exact Hr']. left. now apply leb_false_ltb.
Qed.

Lemma order_by_timestamp_sorted (l : list message_row) :
  StronglySorted by_rowid l -> StronglySorted earlier (order_by_timestamp l).
Proof.
  induction 1 as [| r l Hs IH Hr]; simpl; [constructor |].
  apply insert_by_timestamp_sorted; [exact IH |].
  now rewrite order_by_timestamp_perm.
Qed.

Lemma filter_sorted (f : message_row -> bool) (l : list message_row) :
  StronglySorted by_rowid l -> StronglySorted by_rowid (List.filter f l).
Proof.
  induction 1 as [| r l Hs IH Hr]; simpl; [constructor |].
  destruct (f r); [| exact IH].
  constructor; [exact IH |].
  rewrite Forall_forall in Hr |- *. intros x Hx.
  apply Hr. apply list_elem_of_In. apply list_elem_of_In in Hx.
  now apply List.filter_In in Hx.
Qed.

End History.

Example history_of_chat :
  map id (history 1 2 Sample.chat) = [1; 2; 4]
  /\ map id (history 2 1 Sample.chat) = [1; 2; 4]
  /\ map id (history 3 1 Sample.chat) = [3].
Proof. repeat split; reflexivity. Qed.

(** C5. In a table whose rows are in increasing rowid order, [history a b]
    holds exactly the rows sent by [a] to [b] or by [b] to [a], in ascending
    order of timestamp, rows with the same timestamp in ascending order of
    id. *)
Theorem history_exact_and_ordered (a b : Z) (d : database) :
  StronglySorted by_rowid (messages d) ->
  (forall r, r ∈ history a b d <-> r ∈ messages d /\ exchanged a b r)
  /\ StronglySorted earlier (history a b d)
  /\ StronglySorted (fun r r' => String.leb (timestamp r) (timestamp r') = true)
       (history a b d).
Proof.
  intros Hd. unfold history, select_messages.
  assert (Hs : StronglySorted earlier
                 (order_by_timestamp
                    (List.filter (in_conversation (SqlInteger a) (SqlInteger b)
                                    (SqlInteger b) (SqlInteger a)) (messages d)))).
  { apply order_by_timestamp_sorted. now apply filter_sorted. }
  split; [| split].
  - intros r. rewrite order_by_timestamp_perm.
    rewrite !list_elem_of_In, List.filter_In, in_conversation_exchanged.
    reflexivity.
  - exact Hs.
  - revert Hs. generalize (order_by_timestamp
                    (List.filter (in_conversation (SqlInteger a) (SqlInteger b)
                                    (SqlInteger b) (SqlInteger a)) (messages d))).
    induction 1 as [| r l Hl IH Hr]; constructor; [exact IH |].
    eapply Forall_impl; [exact Hr |]. intros x. apply earlier_leb.
Qed.

Lemma history_exact_and_ordered_witness :
  StronglySorted by_rowid (messages Sample.chat)
  /\ ((forall r, r ∈ history 1 2 Sample.chat
                 <-> r ∈ messages Sample.chat /\ exchanged 1 2 r)
      /\ StronglySorted earlier (history 1 2 Sample.chat)
      /\ StronglySorted
           (fun r r' => String.leb (timestamp r) (timestamp r') = true)
           (history 1 2 Sample.chat)).
Proof.
  assert (H : StronglySorted by_rowid (messages Sample.chat)).
  { repeat constructor; unfold by_rowid; simpl; lia. }
  split; [exact H | exact (history_exact_and_ordered 1 2 Sample.chat H)].
Defined.

(** C7. The conversation of [a] with [b] and the conversation of [b] with
    [a] are the same sequence of rows. *)
Theorem history_symmetric (a b : Z) (d : database) :
  history a b d = history b a d.
Proof.
  unfold history, select_messages. f_equal.
  apply List.filter_ext. intros r. unfold in_conversation. apply orb_comm.
Qed.

(** ** The message table under the relay *)

Section Store.

Context {lib : Libraries}.

Lemma largest_rowid_nonneg (tbl : list message_row) : 0 <= largest_rowid tbl.
Proof. induction tbl as [| r tbl IH]; simpl; lia. Qed.

Lemma largest_rowid_bound (tbl : list message_row) :
  Forall (fun r => id r <= largest_rowid tbl) tbl.
Proof.
  induction tbl as [| r tbl IH]; simpl; constructor; [lia |].
  eapply Forall_impl; [exact IH |]. simpl. intros x Hx. lia.
Qed.

(** When the binding succeeds, every parameter of the statement has got a
    value. *)
Lemma bind_slots_length n slots : forall index bound_object xs,
  bind_slots n index bound_object slots = Returns xs ->
  (index <= n)%nat -> (length xs + index = n)%nat.
Proof.
  induction slots as [| [v |] slots IH]; intros index bound_object xs; simpl;
    unfold mbind, outcome_bind.
  - destruct (Nat.ltb_spec index n); [discriminate |].
    intros [= <-] Hle. simpl. lia.
  - destruct (bind_value v) as [x |]; [| discriminate].
    destruct (Nat.leb_spec n index); [discriminate |].
    destruct (bind_slots n (S index) bound_object slots) as [xs' |] eqn:E;
      [| discriminate].
    intros [= <-] Hle. simpl. specialize (IH _ _ _ E). lia.
  - destruct bound_object; [discriminate |]. apply IH.
Qed.

(** The driver binds the sender first: the two values that follow are the
    receiver and the content of the row. *)
Lemma bind_arguments_sender u receiverId content bound :
  bind_arguments 3 [Num u; receiverId; content] = Returns bound ->
  exists receiver body, bound = [SqlInteger u; receiver; body].
Proof.
  unfold bind_arguments. cbn [map concat slots_of app bind_slots bind_value].
  unfold mbind, outcome_bind. cbn [Nat.leb].
  destruct (bind_slots 3 1 false _) as [xs |] eqn:E; [| discriminate].
  intros [= <-]. apply bind_slots_length in E; [| lia].
  destruct xs as [| receiver [| body [| ? ?]]]; simpl in E; try lia. eauto.
Qed.

(** A receiver that is a number takes one parameter, its own. *)
Lemma bind_arguments_numeric_receiver u r content bound :
  bind_arguments 3 [Num u; Num r; content] = Returns bound ->
  exists body, bound = [SqlInteger u; SqlInteger r; body].
Proof.
  unfold bind_arguments. cbn [map concat slots_of app bind_slots bind_value].
  unfold mbind, outcome_bind. cbn [Nat.leb].
  destruct (bind_slots 3 2 false _) as [xs |] eqn:E; [| discriminate].
  intros [= <-]. apply bind_slots_length in E; [| lia].
  destruct xs as [| body [| ? ?]]; simpl in E; try lia. eauto.
Qed.

(** A successful INSERT appends one row, built from the bound values and
    the table default, whose id exceeds every id of the table. *)
Lemma insert_message_returns d u receiverId content now d' rowid :
  insert_message d u receiverId content now = Returns (d', rowid) ->
  exists receiver body,
    bind_arguments 3 [Num u; receiverId; content]
      = Returns [SqlInteger u; receiver; body]
    /\ rowid = Z.max (sqlite_sequence d) (largest_rowid (messages d)) + 1
    /\ d' = {| users := users d;
               messages := messages d ++
                 [{| id := rowid; sender_id := SqlInteger u;
                     receiver_id := integer_affinity receiver;
                     content := text_affinity body; timestamp := now |}];
               sqlite_sequence := rowid;
               foreign_keys := foreign_keys d |}
    /\ Forall (fun r => id r < rowid) (messages d).
Proof.
  unfold insert_message, mbind, outcome_bind.
  destruct (bind_arguments 3 _) as [bound |] eqn:Hb; [| discriminate].
  destruct (bind_arguments_sender _ _ _ _ Hb) as (receiver & body & ->).
  cbn [integer_affinity].
  destruct (max_rowid <=? _); [discriminate |].
  destruct (foreign_keys d && _); [discriminate |].
  intros [= <- <-]. exists receiver, body. repeat split.
  eapply Forall_impl; [apply largest_rowid_bound |]. simpl. intros x Hx. lia.
Qed.

Lemma by_rowid_snoc (tbl : list message_row) (r : message_row) :
  StronglySorted by_rowid tbl ->
  Forall (fun x => id x < id r) tbl ->
  StronglySorted by_rowid (tbl ++ [r]).
Proof.
  induction 1 as [| x tbl Hs IH Hx]; intros Hr; simpl.
  - repeat constructor.
  - inversion Hr; subst. constructor; [now apply IH |].
    apply Forall_app. split; [exact Hx |]. now repeat constructor.
Qed.

Lemma insert_message_by_rowid d u receiverId content now d' rowid :
  insert_message d u receiverId content now = Returns (d', rowid) ->
  StronglySorted by_rowid (messages d) ->
  StronglySorted by_rowid (messages d').
Proof.
  intros H Hs.
  destruct (insert_message_returns _ _ _ _ _ _ _ H) as (? & ? & _ & _ & -> & Hlt).
  simpl. now apply by_rowid_snoc.
Qed.

(** The handler leaves the database as it is, or as one INSERT made it. *)
Lemma on_message_db rs ws data now userId g u' g' effects :
  on_message rs ws data now userId g = Returns (u', g', effects) ->
  db g' = db g
  \/ exists u receiverId content rowid,
       insert_message (db g) u receiverId content (CURRENT_TIMESTAMP now)
         = Returns (db g', rowid).
Proof.
  unfold on_message, mbind, outcome_bind.
  intros H. repeat case_match; simplify_eq; simpl; eauto 8.
Qed.

Lemma step_by_rowid σ e σ' effects :
  step σ e = Returns (σ', effects) ->
  StronglySorted by_rowid (messages (db (shared σ))) ->
  StronglySorted by_rowid (messages (db (shared σ'))).
Proof.
  destruct e as [ws | ws data now | ws]; simpl;
    unfold mbind, outcome_bind; intros H Hs.
  - repeat case_match; simplify_eq; exact Hs.
  - destruct (sessions σ !! ws) as [s |]; [| simplify_eq; exact Hs].
    destruct (is_closed (readyState s)); [simplify_eq; exact Hs |].
    destruct (on_message _ _ _ _ _ _) as [[[u g] effs] |] eqn:E; [| discriminate].
    simplify_eq. simpl.
    destruct (on_message_db _ _ _ _ _ _ _ _ _ E) as [-> | (? & ? & ? & ? & Hi)];
      [exact Hs | eapply insert_message_by_rowid; eauto].
  - unfold on_close in H. repeat case_match; simplify_eq; exact Hs.
Qed.

Lemma run_by_rowid events : forall σ,
  StronglySorted by_rowid (messages (db (shared σ))) ->
  StronglySorted by_rowid (messages (db (shared (run σ events).1.1))).
Proof.
  induction events as [| e events IH]; intros σ Hs; simpl; [exact Hs |].
  destruct (step σ e) as [[σ' effs] |] eqn:E; [| exact Hs].
  specialize (IH σ' (step_by_rowid _ _ _ _ E Hs)).
  destruct (run σ' events) as [[σ'' effs'] raised]. exact IH.
Qed.

(** The route answers with the conversation of the token's user and the
    user whose id the path names. *)
Lemma get_api_messages_history t otherId d a b :
  t <> ""%string -> jwt_verify (Str t) = Some (Some a) ->
  text_to_integer otherId = Some b ->
  get_api_messages (Some t) otherId d = Json (map js_message (history a b d)).
Proof.
  intros Ht Hv Hb. unfold get_api_messages, history.
  apply String.eqb_neq in Ht. rewrite Ht, Hv. simpl. now rewrite Hb.
Qed.

End Store.

Example two_sends_get_ids_1_and_2 :
  let '(σ, effects, raised) :=
    Sample.run Sample.two_users
      [Connection 0%nat; Message 0%nat (Sample.auth_text "token-of-1") Sample.noon;
       Message 0%nat (Sample.send_text "hi") Sample.noon;
       Message 0%nat (Sample.send_text "") Sample.noon] in
  map id (messages (db (shared σ))) = [1; 2] /\ raised = None.
Proof. vm_compute. split; reflexivity. Qed.

(** C8. Every INSERT that succeeds returns an id greater than the id of
    every row already in the table and appends the row that carries it; so
    over any sequence of events on a freshly created database the rows, in
    the order they were appended, have strictly increasing ids. *)
Theorem append_ids_strictly_increasing {lib : Libraries} :
  (forall d u receiverId content now d' rowid,
      insert_message d u receiverId content now = Returns (d', rowid) ->
      Forall (fun r => id r < rowid) (messages d)
      /\ exists r, messages d' = messages d ++ [r] /\ id r = rowid)
  /\ (forall ids enforce events,
        StronglySorted by_rowid
          (messages (db (shared (run (boot (created ids enforce)) events).1.1)))).
Proof.
  split.
  - intros d u receiverId content now d' rowid H.
    destruct (insert_message_returns _ _ _ _ _ _ _ H)
      as (receiver & body & _ & _ & -> & Hlt).
    split; [exact Hlt |]. eexists. split; reflexivity.
  - intros ids enforce events. apply run_by_rowid. simpl. constructor.
Qed.

Lemma append_ids_strictly_increasing_witness :
  insert_message (lib := Sample.libraries) Sample.chat 2 (Num 1) (Str "fine")
    "2024-05-01 12:00:11"
  = Returns
      ({| users := users Sample.chat;
          messages := messages Sample.chat
                      ++ [Sample.row 5 2 1 "fine" "2024-05-01 12:00:11"];
          sqlite_sequence := 5; foreign_keys := true |}, 5)
  /\ Forall (fun r => id r < 5) (messages Sample.chat).
Proof.
  assert (H : insert_message (lib := Sample.libraries) Sample.chat 2 (Num 1)
                (Str "fine") "2024-05-01 12:00:11"
              = Returns
                  ({| users := users Sample.chat;
                      messages := messages Sample.chat
                        ++ [Sample.row 5 2 1 "fine" "2024-05-01 12:00:11"];
                      sqlite_sequence := 5; foreign_keys := true |}, 5)).
  { reflexivity. }
  split; [exact H |].
  exact (proj1 (proj1 (append_ids_strictly_increasing (lib := Sample.libraries))
                  _ _ _ _ _ _ _ H)).
Defined.

(** ** The inbound frame handler *)

(** No element of a list of other calls: [Hin] is absurd. *)
Ltac not_among Hin :=
  simpl in Hin;
  repeat (apply elem_of_cons in Hin as [Hin | Hin]; [discriminate Hin |]);
  now apply elem_of_nil in Hin.

Section Handler.

Context {lib : Libraries}.

Lemma on_message_not_json rs ws data now userId g :
  JSON_parse data = None ->
  on_message rs ws data now userId g = Throws SyntaxError.
Proof. unfold on_message. now intros ->. Qed.

(** [JSON.parse('null')] is a value without properties: reading its [type]
    raises. *)
Lemma on_message_null rs ws data now userId g :
  JSON_parse data = Some Null ->
  on_message rs ws data now userId g = Throws TypeError.
Proof. unfold on_message. now intros ->. Qed.


Lemma on_message_auth_accepted rs ws data now userId g token u :
  auth_frame data token -> jwt_verify token = Some (Some u) -> u <> 0 ->
  on_message rs ws data now userId g
  = Returns (Some u, {| clients := <[u := ws]> (clients g); db := db g |}, []).
Proof.
  intros (message & (Hp & t & Ht & Hty) & Htok) Hv Hu.
  unfold on_message, verify. rewrite Hp, Ht. simpl. rewrite Hty, Htok. simpl.
  rewrite Hv. unfold truthy. apply Z.eqb_neq in Hu. now rewrite Hu.
Qed.

Lemma on_message_ignored rs ws data now userId g message t :
  JSON_parse data = Some message -> get message "type" = Returns t ->
  strict_eq_str t "auth" = false ->
  strict_eq_str t "message" && truthy userId = false ->
  on_message rs ws data now userId g = Returns (userId, g, []).
Proof.
  intros Hp Ht Ha Hm. unfold on_message. rewrite Hp, Ht. simpl.
  now rewrite Ha, Hm.
Qed.



End Handler.




Lemma sample_auth_frame_1 :
  auth_frame (lib := Sample.libraries) (Sample.auth_text "token-of-1")
    (Str "token-of-1").
Proof.
  exists (Sample.auth_value "token-of-1"). repeat split.
  exists (Str "auth"). split; reflexivity.
Qed.


(** C10. The handler is not total: in every session state, authenticated or
    not, there is inbound data on which it raises, and it raises on every
    frame that is not JSON; a frame that parses to a value with a [type]
    other than ["auth"] and ["message"] is ignored: nothing changes and
    nothing is sent. *)
Theorem frame_that_is_not_json_raises {lib : Libraries} rs ws now userId g :
  (exists data, on_message rs ws data now userId g = Throws SyntaxError)
  /\ (forall data,
        JSON_parse data = None ->
        on_message rs ws data now userId g = Throws SyntaxError)
  /\ (forall data message t,
        JSON_parse data = Some message ->
        get message "type" = Returns t ->
        strict_eq_str t "auth" = false ->
        strict_eq_str t "message" = false ->
        on_message rs ws data now userId g = Returns (userId, g, [])).
Proof.
  split; [| split].
  - exists ""%string. apply on_message_not_json, JSON_parse_empty.
  - intros data. apply on_message_not_json.
  - intros data message t Hp Ht Ha Hm.
    apply (on_message_ignored rs ws data now userId g message t Hp Ht Ha).
    now rewrite Hm.
Qed.

Lemma frame_that_is_not_json_raises_witness :
  Sample.on_message (fun _ => OPEN) 0%nat "{oops" Sample.noon (Some 1)
    (shared Sample.two_users) = Throws SyntaxError
  /\ Sample.on_message (fun _ => OPEN) 0%nat Sample.ping_text Sample.noon
       (Some 1) (shared Sample.two_users)
     = Returns (Some 1, shared Sample.two_users, []).
Proof.
  split.
  - apply (proj1 (proj2 (frame_that_is_not_json_raises (lib := Sample.libraries)
                    (fun _ => OPEN) 0%nat Sample.noon (Some 1)
                    (shared Sample.two_users))) "{oops"%string).
    reflexivity.
  - apply (proj2 (proj2 (frame_that_is_not_json_raises (lib := Sample.libraries)
                    (fun _ => OPEN) 0%nat Sample.noon (Some 1)
                    (shared Sample.two_users)))
             Sample.ping_text (Obj [("type"%string, Str "ping")]) (Str "ping"));
      reflexivity.
Defined.

(** ** Send frames *)

Section Sending.

Context {lib : Libraries}.

(** On a send frame of a session whose [userId] is set, the handler is the
    INSERT followed by the two pushes. *)
Lemma on_message_send rs ws data now u g receiverId content :
  send_frame data receiverId content -> u <> 0 ->
  on_message rs ws data now (Some u) g
  = ('(d, rowid) ← insert_message (db g) u receiverId content
                     (CURRENT_TIMESTAMP now);
     let savedMsg := {| msg_id := js_number rowid; msg_sender_id := u;
                        msg_receiver_id := receiverId; msg_content := content;
                        msg_timestamp := Date_toISOString now |} in
     Returns (Some u, {| clients := clients g; db := d |},
              match clients_get (clients g) receiverId with
              | Some receiverWs =>
                  if is_open (rs receiverWs) then [Send receiverWs savedMsg]
                  else []
              | None => []
              end ++ [Send ws savedMsg])).
Proof.
  intros (message & (Hp & t & Ht & Hty) & Hr & Hc) Hu.
  unfold on_message. rewrite Hp, Ht. simpl.
  assert (Ha : strict_eq_str t "auth" = false).
  { destruct t as [| | | | s | |]; simpl in *; try reflexivity.
    apply String.eqb_eq in Hty. now subst. }
  rewrite Ha, Hty. unfold truthy. apply Z.eqb_neq in Hu. rewrite Hu. simpl.
  rewrite Hr, Hc. reflexivity.
Qed.

Lemma on_message_send_throws rs ws data now u g receiverId content e :
  send_frame data receiverId content -> u <> 0 ->
  insert_message (db g) u receiverId content (CURRENT_TIMESTAMP now) = Throws e ->
  on_message rs ws data now (Some u) g = Throws e.
Proof.
  intros Hf Hu Hi. rewrite (on_message_send _ _ _ _ _ _ _ _ Hf Hu), Hi.
  reflexivity.
Qed.

(** C4, amended. A pushed frame carries, as a JavaScript number, the id
    the INSERT assigned to the row just appended: the same id as long as it
    does not exceed 2^53.  Its timestamp is the handler's own
    [new Date().toISOString()], read after the insert, while the row keeps
    the [CURRENT_TIMESTAMP] of the table default. *)
Theorem pushed_frame_carries_row_id_and_handler_clock
    rs ws data now userId g u' g' effects to m :
  on_message rs ws data now userId g = Returns (u', g', effects) ->
  Send to m ∈ effects ->
  exists row,
    messages (db g') = messages (db g) ++ [row]
    /\ msg_id m = js_number (id row)
    /\ (id row <= 2 ^ 53 -> msg_id m = id row)
    /\ timestamp row = CURRENT_TIMESTAMP now
    /\ msg_timestamp m = Date_toISOString now.
Proof.
  unfold on_message, verify, mbind, outcome_bind.
  destruct (JSON_parse data) as [message |]; [| discriminate].
  destruct (get message "type") as [t |]; [| discriminate].
  destruct (strict_eq_str t "auth").
  { intros H Hin. repeat case_match; simplify_eq; not_among Hin. }
  destruct (strict_eq_str t "message" && truthy userId);
    [| intros [= <- <- <-] Hin; not_among Hin].
  destruct userId as [u |]; [| intros [= <- <- <-] Hin; not_among Hin].
  destruct (get message "receiverId") as [receiverId |]; [| discriminate].
  destruct (get message "content") as [content |]; [| discriminate].
  destruct (insert_message _ _ _ _ _) as [[d rowid] |] eqn:Hi; [| discriminate].
  intros [= <- <- <-] Hin.
  destruct (insert_message_returns _ _ _ _ _ _ _ Hi)
    as (receiver & body & _ & Hrowid & -> & _).
  pose proof (largest_rowid_nonneg (messages (db g))) as Hpos.
  assert (Hm : m = {| msg_id := js_number rowid; msg_sender_id := u;
                      msg_receiver_id := receiverId; msg_content := content;
                      msg_timestamp := Date_toISOString now |}).
  { apply elem_of_app in Hin as [Hin | Hin].
    - repeat case_match; try not_among Hin.
      apply list_elem_of_singleton in Hin. now simplify_eq.
    - apply list_elem_of_singleton in Hin. now simplify_eq. }
  subst m. eexists. split; [reflexivity |]. simpl.
  split; [reflexivity |]. split; [| split; reflexivity].
  intros Hle. apply js_number_exact.
  change (2 ^ 53) with 9007199254740992 in *. lia.
Qed.

End Sending.

Lemma insert_message_accepts {lib : Libraries} d u r content body now :
  bind_arguments 3 [Num u; Num r; content]
    = Returns [SqlInteger u; SqlInteger r; body] ->
  foreign_keys d = false \/ (u ∈ users d /\ r ∈ users d) ->
  Z.max (sqlite_sequence d) (largest_rowid (messages d)) < max_rowid ->
  insert_message d u (Num r) content now
  = Returns
      ({| users := users d;
          messages := messages d ++
            [{| id := Z.max (sqlite_sequence d) (largest_rowid (messages d)) + 1;
                sender_id := SqlInteger u; receiver_id := SqlInteger r;
                content := text_affinity body; timestamp := now |}];
          sqlite_sequence := Z.max (sqlite_sequence d) (largest_rowid (messages d)) + 1;
          foreign_keys := foreign_keys d |},
       Z.max (sqlite_sequence d) (largest_rowid (messages d)) + 1).
Proof.
  intros Hb Hfk Hroom. unfold insert_message, mbind, outcome_bind.
  rewrite Hb. cbn [integer_affinity references_user].
  apply Z.leb_gt in Hroom. rewrite Hroom.
  assert (E : foreign_keys d
              && negb (bool_decide (u ∈ users d) && bool_decide (r ∈ users d))
              = false).
  { destruct Hfk as [-> | [Hu Hr]]; [reflexivity |].
    rewrite !bool_decide_eq_true_2 by assumption. apply andb_false_r. }
  now rewrite E.
Qed.

Lemma sample_send_frame (text : string) :
  text = "hi"%string \/ text = ""%string ->
  send_frame (lib := Sample.libraries) (Sample.send_text text) (Num 2) (Str text).
Proof.
  intros [-> | ->]; eexists; (split; [split; [reflexivity |] |]);
    [exists (Str "message") | | exists (Str "message") |]; split; reflexivity.
Qed.

Lemma sample_send_frame_no_content :
  send_frame (lib := Sample.libraries) Sample.send_text_no_content (Num 2) Undefined.
Proof.
  exists Sample.send_value_no_content. split; [split; [reflexivity |] |].
  - exists (Str "message"). split; reflexivity.
  - split; reflexivity.
Qed.

(** C2, as stated, fails: a session authenticated as user 1 submits a send
    frame whose content is the empty string, for the existing user 2; the
    row is inserted and the frame is pushed back to the sender. *)
Lemma empty_content_is_persisted_and_pushed :
  let '(σ, effects, raised) :=
    Sample.run Sample.two_users
      [Connection 0%nat; Message 0%nat (Sample.auth_text "token-of-1") Sample.noon;
       Message 0%nat (Sample.send_text "") Sample.noon] in
  messages (db (shared σ)) = [Sample.row 1 1 2 "" "2024-05-01 12:00:00"]
  /\ effects = [Send 0%nat {| msg_id := 1; msg_sender_id := 1;
                              msg_receiver_id := Num 2; msg_content := Str "";
                              msg_timestamp := "2024-05-01T12:00:00.250Z" |}]
  /\ raised = None.
Proof. vm_compute. repeat split. Qed.

(** C2, amended. The handler checks neither the content nor the receiver of
    a send frame; only the INSERT can refuse it.  With the empty string as
    content, or with no content at all (which is bound as NULL), and a
    receiver the foreign keys admit, the row is appended and the frame is
    pushed to the sender.  With a receiver that is no user under enforced
    foreign keys the INSERT fails and the handler raises, so nothing is
    stored and nothing is pushed. *)
Theorem send_frame_is_checked_by_the_insert_only {lib : Libraries}
    rs ws data now u g receiverId content :
  send_frame data receiverId content -> u <> 0 ->
  (forall r,
      content = Str "" \/ content = Undefined -> receiverId = Num r ->
      foreign_keys (db g) = false \/ (u ∈ users (db g) /\ r ∈ users (db g)) ->
      Z.max (sqlite_sequence (db g)) (largest_rowid (messages (db g))) < max_rowid ->
      exists d rowid effects,
        on_message rs ws data now (Some u) g
        = Returns (Some u, {| clients := clients g; db := d |}, effects)
        /\ messages d = messages (db g) ++
             [{| id := rowid; sender_id := SqlInteger u;
                 receiver_id := SqlInteger r;
                 content := match content with
                            | Str s => SqlText s
                            | _ => SqlNull
                            end;
                 timestamp := CURRENT_TIMESTAMP now |}]
        /\ Send ws {| msg_id := js_number rowid; msg_sender_id := u;
                      msg_receiver_id := Num r; msg_content := content;
                      msg_timestamp := Date_toISOString now |} ∈ effects)
  /\ (forall r,
        receiverId = Num r -> foreign_keys (db g) = true -> r ∉ users (db g) ->
        exists e, on_message rs ws data now (Some u) g = Throws e).
Proof.
  intros Hf Hu. split.
  - intros r Hc -> Hfk Hroom.
    rewrite (on_message_send _ _ _ _ _ _ _ _ Hf Hu).
    assert (Hb : bind_arguments 3 [Num u; Num r; content]
                 = Returns [SqlInteger u; SqlInteger r;
                            match content with
                            | Str s => SqlText s
                            | _ => SqlNull
                            end]).
    { destruct Hc as [-> | ->]; reflexivity. }
    rewrite (insert_message_accepts _ _ _ _ _ _ Hb Hfk Hroom). simpl.
    eexists _, _, _. split; [reflexivity |]. split.
    + destruct Hc as [-> | ->]; reflexivity.
    + apply elem_of_app. right. apply list_elem_of_singleton. reflexivity.
  - intros r -> Hon Hr.
    rewrite (on_message_send _ _ _ _ _ _ _ _ Hf Hu).
    unfold insert_message, mbind, outcome_bind.
    destruct (bind_arguments 3 _) as [bound |] eqn:Hb; [| eauto].
    destruct (bind_arguments_numeric_receiver _ _ _ _ Hb) as (body & ->).
    cbn [integer_affinity references_user].
    destruct (max_rowid <=? _); [eauto |].
    rewrite Hon, (bool_decide_eq_false_2 _ Hr), andb_false_r. simpl. eauto.
Qed.

Lemma send_frame_is_checked_by_the_insert_only_witness :
  (exists d rowid effects,
      Sample.on_message (fun _ => OPEN) 0%nat Sample.send_text_no_content
        Sample.noon (Some 1) (shared Sample.two_users)
      = Returns (Some 1, {| clients := clients (shared Sample.two_users);
                            db := d |}, effects)
      /\ messages d = messages (db (shared Sample.two_users)) ++
           [{| id := rowid; sender_id := SqlInteger 1;
               receiver_id := SqlInteger 2; content := SqlNull;
               timestamp := CURRENT_TIMESTAMP Sample.noon |}]
      /\ Send 0%nat {| msg_id := js_number rowid; msg_sender_id := 1;
                       msg_receiver_id := Num 2; msg_content := Undefined;
                       msg_timestamp := Date_toISOString Sample.noon |} ∈ effects)
  /\ exists e,
       Sample.on_message (fun _ => OPEN) 0%nat (Sample.send_text "hi")
         Sample.noon (Some 1) (shared Sample.one_user) = Throws e.
Proof.
  split.
  - apply (proj1 (send_frame_is_checked_by_the_insert_only
                    (lib := Sample.libraries) (fun _ => OPEN) 0%nat
                    Sample.send_text_no_content Sample.noon 1
                    (shared Sample.two_users) (Num 2) Undefined
                    sample_send_frame_no_content ltac:(lia)) 2).
    + now right.
    + reflexivity.
    + right. simpl. split; set_solver.
    + simpl. unfold max_rowid. lia.
  - apply (proj2 (send_frame_is_checked_by_the_insert_only
                    (lib := Sample.libraries) (fun _ => OPEN) 0%nat
                    (Sample.send_text "hi") Sample.noon 1
                    (shared Sample.one_user) (Num 2) (Str "hi")
                    (sample_send_frame "hi" (or_introl eq_refl)) ltac:(lia)) 2).
    + reflexivity.
    + reflexivity.
    + simpl. set_solver.
Defined.

(** C4, as stated, fails: user 1 sends "hi" to user 2; the row keeps the
    table default, the pushed frame carries the handler's own ISO reading of
    the clock, and the two texts differ. *)
Lemma pushed_timestamp_is_not_the_stored_one :
  let '(σ, effects, raised) :=
    Sample.run Sample.two_users
      [Connection 0%nat; Message 0%nat (Sample.auth_text "token-of-1") Sample.noon;
       Message 0%nat (Sample.send_text "hi") Sample.noon] in
  exists row m,
    messages (db (shared σ)) = [row] /\ effects = [Send 0%nat m]
    /\ id row = msg_id m
    /\ timestamp row = "2024-05-01 12:00:00"%string
    /\ msg_timestamp m = "2024-05-01T12:00:00.250Z"%string
    /\ msg_timestamp m <> timestamp row.
Proof. vm_compute. eexists _, _. repeat split. discriminate. Qed.

Lemma pushed_frame_carries_row_id_and_handler_clock_witness :
  exists g',
    Sample.on_message (fun _ => OPEN) 0%nat (Sample.send_text "hi") Sample.noon
      (Some 1) (shared Sample.two_users)
    = Returns (Some 1, g', [Send 0%nat (Sample.first_message "hi")])
    /\ exists row,
         messages (db g') = messages (db (shared Sample.two_users)) ++ [row]
         /\ 1 = js_number (id row)
         /\ (id row <= 2 ^ 53 -> 1 = id row)
         /\ timestamp row = "2024-05-01 12:00:00"%string
         /\ msg_timestamp (Sample.first_message "hi")
            = "2024-05-01T12:00:00.250Z"%string.
Proof.
  eexists. split; [reflexivity |].
  apply (pushed_frame_carries_row_id_and_handler_clock (lib := Sample.libraries)
           (fun _ => OPEN) 0%nat (Sample.send_text "hi") Sample.noon (Some 1)
           (shared Sample.two_users) (Some 1) _ _ 0%nat
           (Sample.first_message "hi") eq_refl).
  apply list_elem_of_singleton. reflexivity.
Defined.

(** C6, as stated, fails: the sockets 0 and 1 both authenticate as user 1,
    so user 1 is registered under socket 1; socket 0 then submits a send
    frame and receives the push, although it is not the socket registered
    under the sender's id. *)
Lemma echo_is_pushed_to_a_superseded_sender :
  let '(σ, effects, raised) :=
    Sample.run Sample.two_users
      [Connection 0%nat; Connection 1%nat;
       Message 0%nat (Sample.auth_text "token-of-1") Sample.noon;
       Message 1%nat (Sample.auth_text "token-of-1") Sample.noon] in
  clients (shared σ) !! 1 = Some 1%nat
  /\ exists σ',
       Sample.step σ (Message 0%nat (Sample.send_text "hi") Sample.noon)
       = Returns (σ', [Send 0%nat (Sample.first_message "hi")]).
Proof. vm_compute. split; [reflexivity | eexists; reflexivity]. Qed.

(** C6, amended. Once the INSERT has succeeded the handler always pushes the
    message to the socket that submitted the frame, whichever socket is
    registered under the sender's id, and it pushes the message to a socket
    as the receiver only when that socket is registered under the receiver
    of the message (the receiver the row was stored for) and is OPEN. *)
Theorem dispatch_pushes_to_open_receiver_and_to_submitter {lib : Libraries}
    rs ws data now u g receiverId content d rowid :
  send_frame data receiverId content -> u <> 0 ->
  insert_message (db g) u receiverId content (CURRENT_TIMESTAMP now)
    = Returns (d, rowid) ->
  let m := {| msg_id := js_number rowid; msg_sender_id := u;
              msg_receiver_id := receiverId; msg_content := content;
              msg_timestamp := Date_toISOString now |} in
  exists to_receiver row,
    on_message rs ws data now (Some u) g
    = Returns (Some u, {| clients := clients g; db := d |},
               to_receiver ++ [Send ws m])
    /\ messages d = messages (db g) ++ [row]
    /\ forall e, e ∈ to_receiver ->
         exists to n,
           e = Send to m
           /\ msg_receiver_id m = Num n
           /\ receiver_id row = SqlInteger n
           /\ clients g !! n = Some to
           /\ is_open (rs to) = true.
Proof.
  intros Hf Hu Hi m.
  rewrite (on_message_send _ _ _ _ _ _ _ _ Hf Hu), Hi. simpl. fold m.
  destruct (insert_message_returns _ _ _ _ _ _ _ Hi)
    as (receiver & body & Hb & _ & -> & _).
  eexists _, _. split; [reflexivity |]. split; [reflexivity |]. simpl.
  intros e He.
  destruct receiverId as [| | | n | | |]; simpl in He;
    try (now apply elem_of_nil in He).
  destruct (clients g !! n) as [receiverWs |] eqn:Hc;
    [| now apply elem_of_nil in He].
  destruct (is_open (rs receiverWs)) eqn:Ho; [| now apply elem_of_nil in He].
  apply list_elem_of_singleton in He. subst e.
  destruct (bind_arguments_numeric_receiver _ _ _ _ Hb) as (body' & [= -> ->]).
  exists receiverWs, n. repeat split; assumption.
Qed.

Lemma dispatch_pushes_to_open_receiver_and_to_submitter_witness :
  exists d to_receiver,
    insert_message (lib := Sample.libraries) (db (shared Sample.two_users)) 1
      (Num 2) (Str "hi") "2024-05-01 12:00:00" = Returns (d, 1)
    /\ Sample.on_message (fun _ => OPEN) 0%nat (Sample.send_text "hi")
         Sample.noon (Some 1)
         {| clients := {[ 2 := 1%nat ]}; db := db (shared Sample.two_users) |}
       = Returns (Some 1, {| clients := {[ 2 := 1%nat ]}; db := d |},
                  to_receiver ++ [Send 0%nat (Sample.first_message "hi")]).
Proof.
  eexists.
  destruct (dispatch_pushes_to_open_receiver_and_to_submitter
              (lib := Sample.libraries) (fun _ => OPEN) 0%nat
              (Sample.send_text "hi") Sample.noon 1
              {| clients := {[ 2 := 1%nat ]}; db := db (shared Sample.two_users) |}
              (Num 2) (Str "hi") _ 1
              (sample_send_frame "hi" (or_introl eq_refl)) ltac:(lia) eq_refl)
    as (to_receiver & row & Hrun & _).
  exists to_receiver. split; [reflexivity | exact Hrun].
Defined.

(** ** The registry across events *)

Section Registry.

Context {lib : Libraries}.

Lemma step_auth σ ws s data now token u :
  sessions σ !! ws = Some s -> is_closed (readyState s) = false ->
  auth_frame data token -> jwt_verify token = Some (Some u) -> u <> 0 ->
  step σ (Message ws data now)
  = Returns ({| shared := {| clients := <[u := ws]> (clients (shared σ));
                             db := db (shared σ) |};
                sessions := <[ws := {| userId := Some u;
                                       readyState := readyState s |}]>
                              (sessions σ) |}, []).
Proof.
  intros Hs Hopen Ha Hv Hu. simpl. rewrite Hs, Hopen.
  now rewrite (on_message_auth_accepted _ _ _ _ _ _ _ _ Ha Hv Hu).
Qed.

Lemma step_close σ ws s :
  sessions σ !! ws = Some s -> is_closed (readyState s) = false ->
  step σ (Close ws)
  = Returns ({| shared := on_close (userId s) (shared σ);
                sessions := <[ws := {| userId := userId s;
                                       readyState := CLOSED |}]>
                              (sessions σ) |}, []).
Proof. intros Hs Hopen. simpl. now rewrite Hs, Hopen. Qed.

Lemma on_close_clients u g :
  u <> 0 -> clients (on_close (Some u) g) = delete u (clients g).
Proof.
  intros Hu. unfold on_close, truthy. apply Z.eqb_neq in Hu. now rewrite Hu.
Qed.

Lemma run_cons σ e events σ' effects :
  step σ e = Returns (σ', effects) ->
  (run σ (e :: events)).1.1 = (run σ' events).1.1
  /\ (run σ (e :: events)).2 = (run σ' events).2.
Proof.
  intros H. cbn [run]. rewrite H.
  destruct (run σ' events) as [[σ'' effects'] raised]. split; reflexivity.
Qed.

(** C1, amended. The close of a socket removes the entry of the user id its
    session holds, whichever socket is registered there: after two sockets
    have registered in turn as the same user, the close of the first leaves
    that user without an entry. *)
Theorem close_removes_entry_of_newer_connection
    σ c1 c2 s1 s2 u data1 data2 token1 token2 now1 now2 :
  c1 <> c2 ->
  sessions σ !! c1 = Some s1 -> is_closed (readyState s1) = false ->
  sessions σ !! c2 = Some s2 -> is_closed (readyState s2) = false ->
  auth_frame data1 token1 -> jwt_verify token1 = Some (Some u) ->
  auth_frame data2 token2 -> jwt_verify token2 = Some (Some u) ->
  u <> 0 ->
  clients (shared (run σ [Message c1 data1 now1; Message c2 data2 now2]).1.1)
    !! u = Some c2
  /\ clients (shared (run σ [Message c1 data1 now1; Message c2 data2 now2;
                            Close c1]).1.1) !! u = None
  /\ (run σ [Message c1 data1 now1; Message c2 data2 now2; Close c1]).2 = None.
Proof.
  intros Hne H1 Ho1 H2 Ho2 Ha1 Hv1 Ha2 Hv2 Hu.
  pose proof (step_auth σ c1 s1 data1 now1 token1 u H1 Ho1 Ha1 Hv1 Hu) as E1.
  set (σ1 := {| shared := {| clients := <[u := c1]> (clients (shared σ));
                             db := db (shared σ) |};
                sessions := <[c1 := {| userId := Some u;
                                       readyState := readyState s1 |}]>
                              (sessions σ) |}) in E1.
  assert (H2' : sessions σ1 !! c2 = Some s2).
  { simpl. now rewrite lookup_insert_ne. }
  pose proof (step_auth σ1 c2 s2 data2 now2 token2 u H2' Ho2 Ha2 Hv2 Hu) as E2.
  set (σ2 := {| shared := {| clients := <[u := c2]> (clients (shared σ1));
                             db := db (shared σ1) |};
                sessions := <[c2 := {| userId := Some u;
                                       readyState := readyState s2 |}]>
                              (sessions σ1) |}) in E2.
  assert (H1' : sessions σ2 !! c1
                = Some {| userId := Some u; readyState := readyState s1 |}).
  { simpl. rewrite lookup_insert_ne by congruence. apply lookup_insert_eq. }
  pose proof (step_close σ2 c1 _ H1' Ho1) as E3.
  split; [| split].
  - rewrite (proj1 (run_cons _ _ _ _ _ E1)), (proj1 (run_cons _ _ _ _ _ E2)).
    simpl. apply lookup_insert_eq.
  - rewrite (proj1 (run_cons _ _ _ _ _ E1)), (proj1 (run_cons _ _ _ _ _ E2)),
      (proj1 (run_cons _ _ _ _ _ E3)).
    cbn [run fst shared userId]. rewrite (on_close_clients _ _ Hu).
    apply lookup_delete_eq.
  - rewrite (proj2 (run_cons _ _ _ _ _ E1)), (proj2 (run_cons _ _ _ _ _ E2)),
      (proj2 (run_cons _ _ _ _ _ E3)).
    reflexivity.
Qed.

End Registry.

(** C1, as stated, fails: the sockets 0 and 1 register in turn as user 1;
    the lookup of user 1 gives socket 1 until socket 0 closes, and nothing
    afterwards. *)
Lemma stale_close_removes_newer_registration :
  clients (shared (Sample.run Sample.two_users
    [Connection 0%nat; Connection 1%nat;
     Message 0%nat (Sample.auth_text "token-of-1") Sample.noon;
     Message 1%nat (Sample.auth_text "token-of-1") Sample.noon]).1.1) !! 1
  = Some 1%nat
  /\ clients (shared (Sample.run Sample.two_users
       [Connection 0%nat; Connection 1%nat;
        Message 0%nat (Sample.auth_text "token-of-1") Sample.noon;
        Message 1%nat (Sample.auth_text "token-of-1") Sample.noon;
        Close 0%nat]).1.1) !! 1
     <> Some 1%nat.
Proof. vm_compute. split; [reflexivity | discriminate]. Qed.

Lemma close_removes_entry_of_newer_connection_witness :
  clients (shared (Sample.run Sample.two_sockets
    [Message 0%nat (Sample.auth_text "token-of-1") Sample.noon;
     Message 1%nat (Sample.auth_text "token-of-1") Sample.noon]).1.1) !! 1
  = Some 1%nat
  /\ clients (shared (Sample.run Sample.two_sockets
       [Message 0%nat (Sample.auth_text "token-of-1") Sample.noon;
        Message 1%nat (Sample.auth_text "token-of-1") Sample.noon;
        Close 0%nat]).1.1) !! 1 = None
  /\ (Sample.run Sample.two_sockets
       [Message 0%nat (Sample.auth_text "token-of-1") Sample.noon;
        Message 1%nat (Sample.auth_text "token-of-1") Sample.noon;
        Close 0%nat]).2 = None.
Proof.
  apply (close_removes_entry_of_newer_connection (lib := Sample.libraries)
           Sample.two_sockets 0%nat 1%nat Sample.fresh_session
           Sample.fresh_session 1
           (Sample.auth_text "token-of-1") (Sample.auth_text "token-of-1")
           (Str "token-of-1") (Str "token-of-1") Sample.noon Sample.noon).
  - lia.
  - reflexivity.
  - reflexivity.
  - reflexivity.
  - reflexivity.
  - exact sample_auth_frame_1.
  - reflexivity.
  - exact sample_auth_frame_1.
  - reflexivity.
  - lia.
Defined.

(** C3 on the code: socket 0 authenticates as user 1, then as user 2, then
    closes.  The close removes the entry of user 2 only; the entry of user 1
    still holds the closed socket. *)
Lemma reauthenticated_session_leaves_entry_on_close :
  let '(σ, effects, raised) :=
    Sample.run Sample.two_users
      [Connection 0%nat;
       Message 0%nat (Sample.auth_text "token-of-1") Sample.noon;
       Message 0%nat (Sample.auth_text "token-of-2") Sample.noon;
       Close 0%nat] in
  sessions σ !! 0%nat = Some {| userId := Some 2; readyState := CLOSED |}
  /\ clients (shared σ) !! 2 = None
  /\ clients (shared σ) !! 1 = Some 0%nat
  /\ raised = None.
Proof. vm_compute. repeat split. Qed.

(** * Further properties of the relay *)

Section Pushes.

Context {lib : Libraries}.

(** What a handler call that pushes anything has done. *)
Lemma on_message_push_inv rs ws data now userId g u' g' effects to m :
  on_message rs ws data now userId g = Returns (u', g', effects) ->
  Send to m ∈ effects ->
  exists u receiverId content d rowid,
    send_frame data receiverId content
    /\ userId = Some u /\ u <> 0 /\ u' = Some u
    /\ insert_message (db g) u receiverId content (CURRENT_TIMESTAMP now)
       = Returns (d, rowid)
    /\ g' = {| clients := clients g; db := d |}
    /\ m = {| msg_id := js_number rowid; msg_sender_id := u;
              msg_receiver_id := receiverId; msg_content := content;
              msg_timestamp := Date_toISOString now |}
    /\ effects
       = match clients_get (clients g) receiverId with
         | Some receiverWs =>
             if is_open (rs receiverWs) then [Send receiverWs m] else []
         | None => []
         end ++ [Send ws m].
Proof.
  unfold on_message, verify, mbind, outcome_bind.
  destruct (JSON_parse data) as [message |] eqn:Hp; [| discriminate].
  destruct (get message "type") as [t |] eqn:Ht; [| discriminate].
  destruct (strict_eq_str t "auth").
  { intros H Hin. repeat case_match; simplify_eq; not_among Hin. }
  destruct (strict_eq_str t "message") eqn:Hty;
    [| intros [= <- <- <-] Hin; not_among Hin].
  destruct userId as [u |]; [| intros [= <- <- <-] Hin; not_among Hin].
  simpl. destruct (u =? 0) eqn:Hu; [intros [= <- <- <-] Hin; not_among Hin |].
  simpl.
  destruct (get message "receiverId") as [receiverId |] eqn:Hr; [| discriminate].
  destruct (get message "content") as [content |] eqn:Hc; [| discriminate].
  destruct (insert_message _ _ _ _ _) as [[d rowid] |] eqn:Hi; [| discriminate].
  intros [= <- <- <-] Hin.
  assert (Hm : m = {| msg_id := js_number rowid; msg_sender_id := u;
                      msg_receiver_id := receiverId; msg_content := content;
                      msg_timestamp := Date_toISOString now |}).
  { apply elem_of_app in Hin as [Hin | Hin].
    - repeat case_match; try not_among Hin.
      apply list_elem_of_singleton in Hin. now simplify_eq.
    - apply list_elem_of_singleton in Hin. now simplify_eq. }
  subst m. simpl.
  exists u, receiverId, content, d, rowid. repeat split; try reflexivity.
  - exists message. repeat split; eauto.
  - now apply Z.eqb_neq.
  - exact Hi.
Qed.

End Pushes.

(** X1. Whatever frame a session whose [userId] is unset (or 0) sends,
    the handler stores no message and pushes none; if it raises, it is on
    the parse or on a property read, never in the database. *)
Theorem unauthenticated_session_stores_and_pushes_nothing {lib : Libraries}
    rs ws data now userId g :
  truthy userId = false ->
  (forall u' g' effects,
      on_message rs ws data now userId g = Returns (u', g', effects) ->
      db g' = db g /\ forall to m, Send to m ∉ effects)
  /\ (forall e,
        on_message rs ws data now userId g = Throws e ->
        e = SyntaxError \/ e = TypeError).
Proof.
  intros Hu. split.
  - intros u' g' effects H. split.
    + revert H. unfold on_message, verify, mbind, outcome_bind.
      destruct (JSON_parse data) as [message |]; [| discriminate].
      destruct (get message "type") as [t |]; [| discriminate].
      destruct (strict_eq_str t "auth").
      * intros H. repeat case_match; simplify_eq; reflexivity.
      * rewrite Hu, andb_false_r. now intros [= <- <- <-].
    + intros to m Hin.
      destruct (on_message_push_inv _ _ _ _ _ _ _ _ _ _ _ H Hin)
        as (u & _ & _ & _ & _ & _ & -> & Hne & _).
      simpl in Hu. apply Z.eqb_neq in Hne. rewrite Hne in Hu. discriminate.
  - intros e. unfold on_message, verify, mbind, outcome_bind.
    destruct (JSON_parse data) as [message |]; [| intros [= <-]; now left].
    destruct (get message "type") as [t |] eqn:Ht.
    + destruct (strict_eq_str t "auth").
      * intros H. repeat case_match; simplify_eq.
      * rewrite Hu, andb_false_r. discriminate.
    + intros [= <-]. destruct message; simpl in Ht; simplify_eq; now right.
Qed.

Lemma unauthenticated_session_stores_and_pushes_nothing_witness :
  Sample.on_message (fun _ => OPEN) 0%nat (Sample.send_text "hi") Sample.noon
    None (shared Sample.two_users)
  = Returns (None, shared Sample.two_users, [])
  /\ db (shared Sample.two_users) = db (shared Sample.two_users)
  /\ forall to m, Send to m ∉ ([] : list effect).
Proof.
  split; [reflexivity |].
  exact (proj1 (unauthenticated_session_stores_and_pushes_nothing
                  (lib := Sample.libraries) (fun _ => OPEN) 0%nat
                  (Sample.send_text "hi") Sample.noon None
                  (shared Sample.two_users) eq_refl)
           None (shared Sample.two_users) [] eq_refl).
Defined.

(** X2. The sender of a pushed message is never taken from the frame: it is
    the user id the session authenticated as, and the row stored with the
    push has the same sender.  The pushed id is the JavaScript number of the
    id of that row, which is the id itself up to 2^53. *)
Theorem pushed_sender_is_the_session_user {lib : Libraries}
    rs ws data now userId g u' g' effects to m :
  on_message rs ws data now userId g = Returns (u', g', effects) ->
  Send to m ∈ effects ->
  userId = Some (msg_sender_id m)
  /\ msg_sender_id m <> 0
  /\ u' = userId
  /\ exists row,
       messages (db g') = messages (db g) ++ [row]
       /\ sender_id row = SqlInteger (msg_sender_id m)
       /\ msg_id m = js_number (id row)
       /\ (id row <= 2 ^ 53 -> msg_id m = id row).
Proof.
  intros H Hin.
  destruct (on_message_push_inv _ _ _ _ _ _ _ _ _ _ _ H Hin)
    as (u & receiverId & content & d & rowid & _ & -> & Hu & -> & Hi & -> & -> & _).
  simpl. repeat split; [exact Hu |].
  destruct (insert_message_returns _ _ _ _ _ _ _ Hi)
    as (receiver & body & _ & Hrowid & -> & _).
  pose proof (largest_rowid_nonneg (messages (db g))) as Hpos.
  eexists. simpl. split; [reflexivity |]. split; [reflexivity |].
  split; [reflexivity |].
  simpl. intros Hle. apply js_number_exact.
  change (2 ^ 53) with 9007199254740992 in *. lia.
Qed.

Lemma pushed_sender_is_the_session_user_witness :
  exists g',
    Sample.on_message (fun _ => OPEN) 0%nat (Sample.send_text "hi") Sample.noon
      (Some 1) (shared Sample.two_users)
    = Returns (Some 1, g', [Send 0%nat (Sample.first_message "hi")])
    /\ exists row,
         messages (db g') = messages (db (shared Sample.two_users)) ++ [row]
         /\ sender_id row = SqlInteger 1
         /\ 1 = js_number (id row)
         /\ (id row <= 2 ^ 53 -> 1 = id row).
Proof.
  eexists. split; [reflexivity |].
  apply (pushed_sender_is_the_session_user (lib := Sample.libraries)
           (fun _ => OPEN) 0%nat (Sample.send_text "hi") Sample.noon (Some 1)
           (shared Sample.two_users) (Some 1) _ _ 0%nat
           (Sample.first_message "hi") eq_refl).
  apply list_elem_of_singleton. reflexivity.
Defined.

(** X3. One handler call pushes one message only, at most twice: to the
    socket that submitted the frame, and to a socket that is OPEN and
    registered under the receiver named in the frame; no other socket is
    written to. *)
Theorem pushes_go_to_submitter_and_open_receiver {lib : Libraries}
    rs ws data now userId g u' g' effects to m :
  on_message rs ws data now userId g = Returns (u', g', effects) ->
  Send to m ∈ effects ->
  (to = ws
   \/ (clients_get (clients g) (msg_receiver_id m) = Some to
       /\ is_open (rs to) = true))
  /\ (forall to' m', Send to' m' ∈ effects -> m' = m)
  /\ (length effects <= 2)%nat
  /\ last effects = Some (Send ws m).
Proof.
  intros H Hin.
  destruct (on_message_push_inv _ _ _ _ _ _ _ _ _ _ _ H Hin)
    as (u & receiverId & content & d & rowid & _ & -> & Hu & -> & Hi & -> & Hm
        & He).
  assert (Hr : msg_receiver_id m = receiverId) by now rewrite Hm.
  rewrite Hr. rewrite He in Hin |- *. clear He.
  destruct (clients_get (clients g) receiverId) as [receiverWs |];
    [destruct (is_open (rs receiverWs)) eqn:Ho |]; simpl in *.
  - repeat split; [| | lia].
    + apply elem_of_cons in Hin as [E | Hin]; [simplify_eq; now right |].
      apply list_elem_of_singleton in Hin. simplify_eq. now left.
    + intros to' m' Hin'.
      apply elem_of_cons in Hin' as [E | Hin']; [now simplify_eq |].
      apply list_elem_of_singleton in Hin'. now simplify_eq.
  - repeat split; [| | lia].
    + apply list_elem_of_singleton in Hin. simplify_eq. now left.
    + intros to' m' Hin'. apply list_elem_of_singleton in Hin'. now simplify_eq.
  - repeat split; [| | lia].
    + apply list_elem_of_singleton in Hin. simplify_eq. now left.
    + intros to' m' Hin'. apply list_elem_of_singleton in Hin'. now simplify_eq.
Qed.

Lemma pushes_go_to_submitter_and_open_receiver_witness :
  Sample.on_message (fun _ => OPEN) 0%nat (Sample.send_text "hi") Sample.noon
    (Some 1)
    {| clients := {[ 2 := 1%nat ]}; db := db (shared Sample.two_users) |}
  = Returns (Some 1,
             {| clients := {[ 2 := 1%nat ]};
                db := {| users := {[1; 2]};
                         messages := [Sample.row 1 1 2 "hi" "2024-05-01 12:00:00"];
                         sqlite_sequence := 1; foreign_keys := true |} |},
             [Send 1%nat (Sample.first_message "hi");
              Send 0%nat (Sample.first_message "hi")])
  /\ (1%nat = 0%nat
      \/ (clients_get ({[ 2 := 1%nat ]} : gmap Z conn)
            (msg_receiver_id (Sample.first_message "hi")) = Some 1%nat
          /\ is_open OPEN = true)).
Proof.
  split; [reflexivity |].
  refine (proj1 (pushes_go_to_submitter_and_open_receiver
           (lib := Sample.libraries)
           (fun _ => OPEN) 0%nat (Sample.send_text "hi") Sample.noon (Some 1)
           {| clients := {[ 2 := 1%nat ]}; db := db (shared Sample.two_users) |}
           (Some 1) _ _ 1%nat (Sample.first_message "hi") eq_refl _)).
  apply elem_of_cons. now left.
Defined.

Section Durability.

Context {lib : Libraries}.

Lemma step_appends σ e σ' effects :
  step σ e = Returns (σ', effects) ->
  exists added,
    messages (db (shared σ')) = messages (db (shared σ)) ++ added
    /\ (length added <= 1)%nat
    /\ Forall (fun r => Z.max (sqlite_sequence (db (shared σ)))
                          (largest_rowid (messages (db (shared σ)))) + 1 = id r
                        /\ sqlite_sequence (db (shared σ')) = id r) added
    /\ (added = [] -> sqlite_sequence (db (shared σ')) = sqlite_sequence (db (shared σ)))
    /\ users (db (shared σ')) = users (db (shared σ))
    /\ foreign_keys (db (shared σ')) = foreign_keys (db (shared σ)).
Proof.
  assert (Hsame : forall d : database,
             exists added : list message_row,
               messages d = messages d ++ added /\ (length added <= 1)%nat
               /\ Forall (fun r => Z.max (sqlite_sequence d)
                                     (largest_rowid (messages d)) + 1 = id r
                                   /\ sqlite_sequence d = id r) added
               /\ (added = [] -> sqlite_sequence d = sqlite_sequence d)
               /\ users d = users d /\ foreign_keys d = foreign_keys d).
  { intros d. exists []. rewrite app_nil_r. repeat split; auto. }
  destruct e as [ws | ws data now | ws]; simpl;
    unfold mbind, outcome_bind; intros H.
  - repeat case_match; simplify_eq; apply Hsame.
  - destruct (sessions σ !! ws) as [s |]; [| simplify_eq; apply Hsame].
    destruct (is_closed (readyState s)); [simplify_eq; apply Hsame |].
    destruct (on_message _ _ _ _ _ _) as [[[u g] effs] |] eqn:E; [| discriminate].
    simplify_eq. simpl.
    destruct (on_message_db _ _ _ _ _ _ _ _ _ E) as [-> | (? & ? & ? & rowid & Hi)];
      [apply Hsame |].
    destruct (insert_message_returns _ _ _ _ _ _ _ Hi)
      as (receiver & body & _ & -> & -> & _).
    eexists [_]. simpl. repeat split; auto. discriminate.
  - unfold on_close in H. repeat case_match; simplify_eq; apply Hsame.
Qed.

End Durability.

(** X4. Over any sequence of events the relay only ever appends to
    [messages]: the rows that were there stay, in place and unchanged, and
    the [users] table is not touched. *)
Theorem stored_messages_are_only_appended_to {lib : Libraries} events : forall σ,
  exists added,
    messages (db (shared (run σ events).1.1)) = messages (db (shared σ)) ++ added
    /\ users (db (shared (run σ events).1.1)) = users (db (shared σ))
    /\ foreign_keys (db (shared (run σ events).1.1)) = foreign_keys (db (shared σ)).
Proof.
  induction events as [| e events IH]; intros σ; simpl.
  - exists []. now rewrite app_nil_r.
  - destruct (step σ e) as [[σ' effs] |] eqn:E.
    + destruct (step_appends _ _ _ _ E) as (a1 & H1 & _ & _ & _ & Hu & Hf).
      destruct (IH σ') as (a2 & H2 & Hu2 & Hf2).
      destruct (run σ' events) as [[σ'' effs'] raised]. simpl in *.
      exists (a1 ++ a2). rewrite H2, H1, app_assoc. repeat split; congruence.
    + exists []. now rewrite app_nil_r.
Qed.

(** X5. On a freshly created database the ids of the stored messages are
    1, 2, 3, ... without a gap, in the order of insertion. *)
Theorem fresh_database_ids_count_from_one {lib : Libraries} ids enforce events :
  map id (messages (db (shared (run (boot (created ids enforce)) events).1.1)))
  = seqZ 1 (Z.of_nat (length (messages (db (shared
               (run (boot (created ids enforce)) events).1.1))))).
Proof.
  assert (Hgen : forall events σ,
    let d := db (shared σ) in
    map id (messages d) = seqZ 1 (Z.of_nat (length (messages d))) ->
    Z.max (sqlite_sequence d) (largest_rowid (messages d))
      = Z.of_nat (length (messages d)) ->
    let d' := db (shared (run σ events).1.1) in
    map id (messages d') = seqZ 1 (Z.of_nat (length (messages d')))).
  { clear events. induction events as [| e events IH]; intros σ d Hids Hmax; subst d; simpl.
    - exact Hids.
    - destruct (step σ e) as [[σ' effs] |] eqn:E; [| exact Hids].
      destruct (step_appends _ _ _ _ E) as (added & Ha & Hlen & Hid & Hseq & _).
      specialize (IH σ').
      destruct (run σ' events) as [[σ'' effs'] raised]. simpl in *.
      apply IH; clear IH.
      + destruct added as [| r [| ? ?]]; simpl in Hlen; try lia.
        * rewrite app_nil_r in Ha. now rewrite Ha.
        * inversion Hid as [| ? ? [Hr _] _]; subst.
          rewrite Ha, map_app, length_app, Hids. simpl.
          rewrite Nat.add_1_r, seqZ_S. f_equal. f_equal. lia.
      + destruct added as [| r [| ? ?]]; simpl in Hlen; try lia.
        * rewrite app_nil_r in Ha. rewrite Ha, (Hseq eq_refl). exact Hmax.
        * inversion Hid as [| ? ? [Hr Hs] _]; subst.
          rewrite Ha, length_app, Hs. simpl.
          assert (Hle : largest_rowid (messages (db (shared σ)) ++ [r]) <= id r).
          { pose proof (largest_rowid_bound (messages (db (shared σ)))) as Hb.
            assert (Hb' : forall l m, 0 <= m -> Forall (fun x => id x <= m) l ->
                                      largest_rowid l <= m).
            { induction l as [| x l IHl]; simpl; intros m Hm Hl; [exact Hm |].
              inversion Hl as [| ? ? Hx Hl']; subst. specialize (IHl m Hm Hl'). lia. }
            apply Hb'; [lia |]. apply Forall_app. split.
            - eapply Forall_impl; [exact Hb |]. simpl. intros x Hx. lia.
            - repeat constructor. lia. }
          lia. }
  apply Hgen; reflexivity.
Qed.

Section RegistryChanges.

Context {lib : Libraries}.

(** The handler leaves the registry as it is, or registers its own socket
    under the non-zero id it has just set as [userId]. *)
Lemma on_message_clients rs ws data now userId g u' g' effects :
  on_message rs ws data now userId g = Returns (u', g', effects) ->
  clients g' = clients g
  \/ exists u, u <> 0 /\ u' = Some u /\ clients g' = <[u := ws]> (clients g).
Proof.
  unfold on_message, verify, mbind, outcome_bind.
  intros H. repeat case_match; simplify_eq; simpl; auto.
  right. eexists. repeat split.
  match goal with
  | Hn : truthy (Some ?n) = true |- _ =>
      simpl in Hn; apply negb_true_iff, Z.eqb_neq in Hn; exact Hn
  end.
Qed.

End RegistryChanges.

(** X6. One event changes the registry for the socket it comes from only: an
    entry that appears holds the socket that sent the frame, and an entry
    disappears only when a socket closes, under the user id of the closing
    session. *)
Theorem registry_changes_only_for_the_event_socket {lib : Libraries}
    σ e σ' effects v :
  step σ e = Returns (σ', effects) ->
  (forall c, clients (shared σ') !! v = Some c ->
             clients (shared σ) !! v = Some c
             \/ exists data now, e = Message c data now)
  /\ (forall c, clients (shared σ) !! v = Some c ->
               clients (shared σ') !! v = None ->
               exists ws s, e = Close ws /\ sessions σ !! ws = Some s
                            /\ userId s = Some v).
Proof.
  destruct e as [ws | ws data now | ws]; simpl;
    unfold mbind, outcome_bind; intros H.
  - assert (σ' = σ \/ shared σ' = shared σ) as [-> | ->]
      by (repeat case_match; simplify_eq; auto).
    + split; [auto | congruence].
    + split; [auto | congruence].
  - destruct (sessions σ !! ws) as [s |];
      [| simplify_eq; split; [auto | congruence]].
    destruct (is_closed (readyState s));
      [simplify_eq; split; [auto | congruence] |].
    destruct (on_message _ _ _ _ _ _) as [[[u g] effs] |] eqn:E; [| discriminate].
    simplify_eq. simpl.
    destruct (on_message_clients _ _ _ _ _ _ _ _ _ E)
      as [-> | (u0 & Hu0 & -> & ->)]; [split; [auto | congruence] |].
    split; intros c.
    + destruct (decide (u0 = v)) as [-> | Hne].
      * rewrite lookup_insert_eq. intros [= <-]. right. eauto.
      * rewrite lookup_insert_ne by exact Hne. auto.
    + destruct (decide (u0 = v)) as [-> | Hne].
      * rewrite lookup_insert_eq. discriminate.
      * rewrite lookup_insert_ne by exact Hne. congruence.
  - destruct (sessions σ !! ws) as [s |] eqn:Hs;
      [| simplify_eq; split; [auto | congruence]].
    destruct (is_closed (readyState s));
      [simplify_eq; split; [auto | congruence] |].
    simplify_eq. simpl. unfold on_close.
    destruct (userId s) as [u |] eqn:Hu; [| split; [auto | congruence]].
    destruct (truthy (Some u)); [| split; [auto | congruence]].
    simpl. split; intros c.
    + destruct (decide (u = v)) as [-> | Hne].
      * rewrite lookup_delete_eq. discriminate.
      * rewrite lookup_delete_ne by exact Hne. auto.
    + destruct (decide (u = v)) as [-> | Hne].
      * intros _ _. exists ws, s. auto.
      * rewrite lookup_delete_ne by exact Hne. congruence.
Qed.

Lemma registry_changes_only_for_the_event_socket_witness :
  exists σ',
    Sample.step Sample.two_sockets
      (Message 1%nat (Sample.auth_text "token-of-2") Sample.noon)
    = Returns (σ', [])
    /\ clients (shared σ') !! 2 = Some 1%nat
    /\ (clients (shared Sample.two_sockets) !! 2 = Some 1%nat
        \/ exists data now,
             Message 1%nat (Sample.auth_text "token-of-2") Sample.noon
             = Message 1%nat data now).
Proof.
  eexists. split; [reflexivity |]. split; [reflexivity |].
  refine (proj1 (registry_changes_only_for_the_event_socket
                   (lib := Sample.libraries) Sample.two_sockets
                   (Message 1%nat (Sample.auth_text "token-of-2") Sample.noon)
                   _ [] 2 eq_refl) 1%nat _).
  reflexivity.
Defined.

(** X7. From start-up on, over any sequence of events, no entry of the
    registry is under the id 0 and every registered socket is one that
    connected. *)
Theorem registry_holds_connected_sockets_under_nonzero_ids {lib : Libraries}
    d events u ws :
  clients (shared (run (boot d) events).1.1) !! u = Some ws ->
  u <> 0 /\ is_Some (sessions (run (boot d) events).1.1 !! ws).
Proof.
  assert (Hgen : forall events σ,
    (forall u ws, clients (shared σ) !! u = Some ws ->
                  u <> 0 /\ is_Some (sessions σ !! ws)) ->
    forall u ws, clients (shared (run σ events).1.1) !! u = Some ws ->
                 u <> 0 /\ is_Some (sessions (run σ events).1.1 !! ws)).
  { clear. induction events as [| e events IH]; intros σ Hinv; simpl;
      [exact Hinv |].
    destruct (step σ e) as [[σ' effs] |] eqn:E; [| exact Hinv].
    specialize (IH σ').
    destruct (run σ' events) as [[σ'' effs'] raised]. simpl in *.
    apply IH. clear IH. intros u ws.
    destruct e as [c | c data now | c]; simpl in E;
      unfold mbind, outcome_bind in E.
    - destruct (sessions σ !! c) eqn:Hc; simplify_eq; [apply Hinv |].
      simpl. intros H. destruct (Hinv u ws H) as [Hu Hs]. split; [exact Hu |].
      destruct (decide (c = ws)) as [-> | Hne];
        [rewrite lookup_insert_eq; eauto | now rewrite lookup_insert_ne].
    - destruct (sessions σ !! c) as [s |] eqn:Hc; [| simplify_eq; apply Hinv].
      destruct (is_closed (readyState s)); [simplify_eq; apply Hinv |].
      destruct (on_message _ _ _ _ _ _) as [[[u1 g] effs1] |] eqn:Em;
        [| discriminate].
      simplify_eq. simpl.
      assert (Hkeep : forall w, is_Some (sessions σ !! w) ->
                is_Some (<[c := {| userId := u1;
                                   readyState := if existsb (is_close_call c) effs
                                                 then CLOSING else readyState s |}]>
                           (sessions σ) !! w)).
      { intros w Hw. destruct (decide (c = w)) as [-> | Hne];
          [rewrite lookup_insert_eq; eauto | now rewrite lookup_insert_ne]. }
      destruct (on_message_clients _ _ _ _ _ _ _ _ _ Em)
        as [-> | (u0 & Hu0 & -> & ->)].
      + intros H. destruct (Hinv u ws H). auto.
      + destruct (decide (u0 = u)) as [-> | Hne].
        * rewrite lookup_insert_eq. intros [= <-]. split; [exact Hu0 |].
          rewrite lookup_insert_eq. eauto.
        * rewrite lookup_insert_ne by exact Hne.
          intros H. destruct (Hinv u ws H). auto.
    - destruct (sessions σ !! c) as [s |] eqn:Hc; [| simplify_eq; apply Hinv].
      destruct (is_closed (readyState s)); [simplify_eq; apply Hinv |].
      simplify_eq. simpl.
      assert (Hsub : clients (on_close (userId s) (shared σ)) !! u = Some ws ->
                     clients (shared σ) !! u = Some ws).
      { unfold on_close. repeat case_match; simpl; auto.
        intros Hd. apply lookup_delete_Some in Hd. tauto. }
      intros H. destruct (Hinv u ws (Hsub H)) as [Hu Hs]. split; [exact Hu |].
      destruct (decide (c = ws)) as [-> | Hne];
        [rewrite lookup_insert_eq; eauto | now rewrite lookup_insert_ne]. }
  apply Hgen. simpl. intros u' ws'. rewrite lookup_empty. discriminate.
Qed.

Lemma registry_holds_connected_sockets_under_nonzero_ids_witness :
  clients (shared (Sample.run (boot (created {[1; 2]} true))
    [Connection 0%nat;
     Message 0%nat (Sample.auth_text "token-of-1") Sample.noon]).1.1) !! 1
  = Some 0%nat
  /\ 1 <> 0
  /\ is_Some (sessions (Sample.run (boot (created {[1; 2]} true))
        [Connection 0%nat;
         Message 0%nat (Sample.auth_text "token-of-1") Sample.noon]).1.1
        !! 0%nat).
Proof.
  split; [reflexivity |].
  exact (registry_holds_connected_sockets_under_nonzero_ids
           (lib := Sample.libraries) (created {[1; 2]} true)
           [Connection 0%nat;
            Message 0%nat (Sample.auth_text "token-of-1") Sample.noon]
           1 0%nat eq_refl).
Defined.

(** * Further properties of the conversation query *)

Section Conversation.

Context {lib : Libraries}.

Lemma insert_by_timestamp_last (r x : message_row) (l : list message_row) :
  String.leb (timestamp r) (timestamp x) = true ->
  insert_by_timestamp r (l ++ [x]) = insert_by_timestamp r l ++ [x].
Proof.
  intros Hrx. induction l as [| r' l IH]; simpl.
  - now rewrite Hrx.
  - destruct (String.leb (timestamp r) (timestamp r')); [reflexivity |].
    now rewrite IH.
Qed.

(** A row that is not older than any row before it is sorted last. *)
Lemma order_by_timestamp_last (x : message_row) (l : list message_row) :
  Forall (fun r => String.leb (timestamp r) (timestamp x) = true) l ->
  order_by_timestamp (l ++ [x]) = order_by_timestamp l ++ [x].
Proof.
  induction 1 as [| r l Hr Hl IH]; simpl; [reflexivity |].
  rewrite IH. now apply insert_by_timestamp_last.
Qed.

Lemma history_after_insert a b d row seq :
  history a b {| users := users d; messages := messages d ++ [row];
                 sqlite_sequence := seq; foreign_keys := foreign_keys d |}
  = order_by_timestamp
      (List.filter (in_conversation (SqlInteger a) (SqlInteger b)
                      (SqlInteger b) (SqlInteger a)) (messages d)
       ++ if in_conversation (SqlInteger a) (SqlInteger b)
               (SqlInteger b) (SqlInteger a) row then [row] else []).
Proof.
  unfold history, select_messages. simpl. rewrite List.filter_app. simpl.
  now destruct (in_conversation _ _ _ _ row).
Qed.

End Conversation.

(** X8. A message stored for the receiver [r] is found in the conversation
    of the sender with [r], asked from either side, whether or not it was
    pushed; the conversation of any other pair of users is what it was. *)
Theorem stored_message_appears_in_its_conversation_only {lib : Libraries}
    d u r content now d' rowid :
  insert_message d u (Num r) content now = Returns (d', rowid) ->
  exists row,
    id row = rowid /\ timestamp row = now
    /\ row ∈ history u r d' /\ row ∈ history r u d'
    /\ forall a b, ~ (a = u /\ b = r) -> ~ (a = r /\ b = u) ->
                   history a b d' = history a b d.
Proof.
  intros Hi.
  destruct (insert_message_returns _ _ _ _ _ _ _ Hi)
    as (receiver & body & Hb & _ & -> & _).
  destruct (bind_arguments_numeric_receiver _ _ _ _ Hb) as (body' & [= -> _]).
  clear body'.
  cbn [integer_affinity].
  set (row := {| id := rowid; sender_id := SqlInteger u;
                 receiver_id := SqlInteger r; content := text_affinity body;
                 timestamp := now |}).
  exists row. split; [reflexivity |]. split; [reflexivity |].
  assert (Hin : forall a b, (a = u /\ b = r) \/ (a = r /\ b = u) ->
            in_conversation (SqlInteger a) (SqlInteger b) (SqlInteger b)
              (SqlInteger a) row = true).
  { intros a b H. apply in_conversation_exchanged. unfold exchanged. simpl.
    destruct H as [[-> ->] | [-> ->]]; auto. }
  assert (Hmem : forall a b, (a = u /\ b = r) \/ (a = r /\ b = u) ->
            row ∈ history a b {| users := users d;
                                 messages := messages d ++ [row];
                                 sqlite_sequence := rowid;
                                 foreign_keys := foreign_keys d |}).
  { intros a b H. unfold history, select_messages.
    rewrite order_by_timestamp_perm, list_elem_of_In, List.filter_In. simpl.
    split; [| now apply Hin]. apply in_or_app. right. now left. }
  split; [apply Hmem; auto |]. split; [apply Hmem; auto |].
  intros a b H1 H2.
  rewrite (history_after_insert a b d row rowid).
  destruct (in_conversation _ _ _ _ row) eqn:E.
  - apply in_conversation_exchanged in E. unfold exchanged in E. simpl in E.
    destruct E as [[[= ->] [= ->]] | [[= ->] [= ->]]]; tauto.
  - now rewrite app_nil_r.
Qed.

Lemma stored_message_appears_in_its_conversation_only_witness :
  insert_message (lib := Sample.libraries) Sample.chat 2 (Num 1) (Str "fine")
    "2024-05-01 12:00:11"
  = Returns
      ({| users := users Sample.chat;
          messages := messages Sample.chat
                      ++ [Sample.row 5 2 1 "fine" "2024-05-01 12:00:11"];
          sqlite_sequence := 5; foreign_keys := true |}, 5)
  /\ exists row,
       id row = 5 /\ timestamp row = "2024-05-01 12:00:11"%string
       /\ row ∈ history 2 1
                  {| users := users Sample.chat;
                     messages := messages Sample.chat
                       ++ [Sample.row 5 2 1 "fine" "2024-05-01 12:00:11"];
                     sqlite_sequence := 5; foreign_keys := true |}.
Proof.
  split; [reflexivity |].
  destruct (stored_message_appears_in_its_conversation_only
              (lib := Sample.libraries) Sample.chat 2 1 (Str "fine")
              "2024-05-01 12:00:11" _ 5 eq_refl)
    as (row & Hid & Hts & Hin & _).
  exists row. auto.
Defined.

(** X9. When no stored message carries a later timestamp than the table
    default gives the new row (the clock does not run backwards), a stored
    message comes last in its conversation: the conversation is what it was,
    followed by the new row. *)
Theorem stored_message_is_last_in_its_conversation {lib : Libraries}
    d u r content now d' rowid :
  Forall (fun x => String.leb (timestamp x) now = true) (messages d) ->
  insert_message d u (Num r) content now = Returns (d', rowid) ->
  exists row,
    id row = rowid
    /\ history u r d' = history u r d ++ [row]
    /\ history r u d' = history r u d ++ [row].
Proof.
  intros Hclock Hi.
  destruct (insert_message_returns _ _ _ _ _ _ _ Hi)
    as (receiver & body & Hb & _ & -> & _).
  destruct (bind_arguments_numeric_receiver _ _ _ _ Hb) as (body' & [= -> _]).
  clear body'.
  cbn [integer_affinity].
  set (row := {| id := rowid; sender_id := SqlInteger u;
                 receiver_id := SqlInteger r; content := text_affinity body;
                 timestamp := now |}).
  exists row. split; [reflexivity |].
  assert (Hlast : forall a b, (a = u /\ b = r) \/ (a = r /\ b = u) ->
    history a b {| users := users d; messages := messages d ++ [row];
                   sqlite_sequence := rowid; foreign_keys := foreign_keys d |}
    = history a b d ++ [row]).
  { intros a b H.
    rewrite (history_after_insert a b d row rowid).
    assert (E : in_conversation (SqlInteger a) (SqlInteger b) (SqlInteger b)
                  (SqlInteger a) row = true).
    { apply in_conversation_exchanged. unfold exchanged. simpl.
      destruct H as [[-> ->] | [-> ->]]; auto. }
    rewrite E. apply order_by_timestamp_last. simpl.
    rewrite Forall_forall in Hclock |- *. intros x Hx. apply Hclock.
    apply list_elem_of_In. apply list_elem_of_In in Hx.
    now apply List.filter_In in Hx. }
  split; apply Hlast; auto.
Qed.

Lemma stored_message_is_last_in_its_conversation_witness :
  Forall (fun x => String.leb (timestamp x) "2024-05-01 12:00:11" = true)
    (messages Sample.chat)
  /\ exists row,
       id row = 5
       /\ history 2 1
            {| users := users Sample.chat;
               messages := messages Sample.chat
                 ++ [Sample.row 5 2 1 "fine" "2024-05-01 12:00:11"];
               sqlite_sequence := 5; foreign_keys := true |}
          = history 2 1 Sample.chat ++ [row].
Proof.
  assert (H : Forall (fun x => String.leb (timestamp x) "2024-05-01 12:00:11" = true)
                (messages Sample.chat)).
  { repeat constructor. }
  split; [exact H |].
  destruct (stored_message_is_last_in_its_conversation
              (lib := Sample.libraries) Sample.chat 2 1 (Str "fine")
              "2024-05-01 12:00:11" _ 5 H eq_refl)
    as (row & Hid & Hh & _).
  exists row. auto.
Defined.

Section MessagesRoute.

Context {lib : Libraries}.

(** No column equals a NULL parameter. *)
Lemma in_conversation_null (p2 p3 : sqlval) (r : message_row) :
  in_conversation SqlNull p2 p3 SqlNull r = false.
Proof.
  unfold in_conversation.
  destruct (sender_id r), (receiver_id r), p2, p3; simpl;
    rewrite ?andb_false_r; reflexivity.
Qed.

Lemma select_messages_null (p2 p3 : sqlval) (tbl : list message_row) :
  select_messages SqlNull p2 p3 SqlNull tbl = [].
Proof.
  unfold select_messages.
  assert (E : List.filter (in_conversation SqlNull p2 p3 SqlNull) tbl = []).
  { induction tbl as [| r tbl IH]; simpl; [reflexivity |].
    now rewrite in_conversation_null. }
  now rewrite E.
Qed.

End MessagesRoute.

(** X10. [GET /api/messages/:otherId] answers with rows only to a token
    that verifies, and every row it answers with is a stored message, its
    integers read as JavaScript numbers, that the user the token names sent
    or received; a token that verifies but names no user is answered with
    the empty list.  Without a token the answer is 401 Unauthorized, with
    one that does not verify 401 Invalid token. *)
Theorem messages_route_answers_the_token_user_only {lib : Libraries}
    token otherId d :
  (forall rows,
      get_api_messages token otherId d = Json rows ->
      exists t decoded,
        token = Some t /\ t <> ""%string /\ jwt_verify (Str t) = Some decoded
        /\ forall r, r ∈ rows ->
              exists a stored,
                decoded = Some a /\ r = js_message stored
                /\ stored ∈ messages d
                /\ (sender_id stored = SqlInteger a
                    \/ receiver_id stored = SqlInteger a))
  /\ (token = None \/ token = Some ""%string ->
      get_api_messages token otherId d = Status401 "Unauthorized")
  /\ (forall t, token = Some t -> t <> ""%string -> jwt_verify (Str t) = None ->
                get_api_messages token otherId d = Status401 "Invalid token")
  /\ (forall t, token = Some t -> t <> ""%string ->
                jwt_verify (Str t) = Some None ->
                get_api_messages token otherId d = Json []).
Proof.
  unfold get_api_messages. split; [| split; [| split]].
  - intros rows. destruct token as [t |]; [| discriminate].
    destruct (String.eqb t "") eqn:Et; [discriminate |].
    destruct (jwt_verify (Str t)) as [decoded |] eqn:Hv; [| discriminate].
    intros H. exists t, decoded. split; [reflexivity |].
    split; [now apply String.eqb_neq |]. split; [exact Hv |].
    destruct decoded as [a |]; simpl in H.
    + injection H as <-. intros r Hr.
      apply list_elem_of_In, in_map_iff in Hr as (stored & <- & Hin).
      unfold select_messages in Hin. rewrite order_by_timestamp_perm in Hin.
      apply List.filter_In in Hin as [Hin Hc].
      exists a, stored. split; [reflexivity |]. split; [reflexivity |].
      split; [now apply list_elem_of_In |].
      unfold in_conversation in Hc.
      rewrite orb_true_iff, !andb_true_iff, !sql_eq_integer in Hc. tauto.
    + rewrite select_messages_null in H. injection H as <-.
      intros r Hr. now apply elem_of_nil in Hr.
  - intros [-> | ->]; reflexivity.
  - intros t -> Ht Hv. apply String.eqb_neq in Ht. now rewrite Ht, Hv.
  - intros t -> Ht Hv. apply String.eqb_neq in Ht. rewrite Ht, Hv. simpl.
    now rewrite select_messages_null.
Qed.

Lemma messages_route_answers_the_token_user_only_witness :
  get_api_messages (lib := Sample.libraries) (Some "token-of-1"%string) "2"
    Sample.chat
  = Json (map js_message (history 1 2 Sample.chat))
  /\ exists t decoded,
       Some "token-of-1"%string = Some t /\ t <> ""%string
       /\ jwt_verify (Libraries := Sample.libraries) (Str t) = Some decoded
       /\ forall r, r ∈ map js_message (history 1 2 Sample.chat) ->
             exists a stored,
               decoded = Some a /\ r = js_message stored
               /\ stored ∈ messages Sample.chat
               /\ (sender_id stored = SqlInteger a
                   \/ receiver_id stored = SqlInteger a).
Proof.
  split; [reflexivity |].
  exact (proj1 (messages_route_answers_the_token_user_only
                  (lib := Sample.libraries) (Some "token-of-1"%string) "2"
                  Sample.chat) (map js_message (history 1 2 Sample.chat))
           eq_refl).
Defined.

(** * The client's view *)

Section View.

Context {lib : Libraries}.

Lemma socket_onmessage_shown prev msg :
  existsb (fun m => msg_id m =? msg_id msg) (socket_onmessage prev msg) = true.
Proof.
  unfold socket_onmessage.
  destruct (existsb _ prev) eqn:E; [exact E |].
  rewrite existsb_app. simpl. now rewrite Z.eqb_refl, orb_true_r.
Qed.

Lemma socket_onmessage_twice prev msg :
  socket_onmessage (socket_onmessage prev msg) msg = socket_onmessage prev msg.
Proof.
  unfold socket_onmessage at 1. now rewrite socket_onmessage_shown.
Qed.

(** The calls of one handler run: nothing, a close, or one message pushed
    once or twice. *)
Lemma on_message_effects rs ws data now userId g u' g' effects :
  on_message rs ws data now userId g = Returns (u', g', effects) ->
  effects = [] \/ effects = [CloseSocket ws]
  \/ exists m, effects = [Send ws m] \/ exists r, effects = [Send r m; Send ws m].
Proof.
  unfold on_message, verify, mbind, outcome_bind.
  intros H. repeat case_match; simplify_eq; simpl; eauto 6.
Qed.

End View.

(** X11. The client's message list never shows an id twice: receiving a
    message keeps the ids pairwise different and keeps what was shown, the
    message's id is shown afterwards, and receiving it again changes
    nothing. *)
Theorem client_view_shows_each_id_once prev msg :
  (NoDup (map msg_id prev) -> NoDup (map msg_id (socket_onmessage prev msg)))
  /\ prev `prefix_of` socket_onmessage prev msg
  /\ msg_id msg ∈ map msg_id (socket_onmessage prev msg)
  /\ socket_onmessage (socket_onmessage prev msg) msg = socket_onmessage prev msg.
Proof.
  split; [| split; [| split]].
  - unfold socket_onmessage. destruct (existsb _ prev) eqn:E; [auto |].
    intros Hnd. rewrite map_app. simpl. apply NoDup_app. split; [exact Hnd |].
    split; [| apply NoDup_singleton].
    intros x Hx Hx'. apply list_elem_of_singleton in Hx'. subst x.
    apply list_elem_of_In, in_map_iff in Hx as (m & Hm & Hin).
    assert (Ht : existsb (fun m => msg_id m =? msg_id msg) prev = true).
    { apply existsb_exists. exists m. split; [exact Hin |]. now apply Z.eqb_eq. }
    congruence.
  - unfold socket_onmessage. destruct (existsb _ prev);
      [reflexivity | now apply prefix_app_r].
  - pose proof (socket_onmessage_shown prev msg) as H.
    apply existsb_exists in H as (m & Hin & Hm). apply Z.eqb_eq in Hm.
    apply list_elem_of_In, in_map_iff. eauto.
  - apply socket_onmessage_twice.
Qed.

Lemma client_view_shows_each_id_once_witness :
  NoDup (map msg_id [Sample.first_message "hi"])
  /\ NoDup (map msg_id (socket_onmessage [Sample.first_message "hi"]
                          (Sample.first_message "again")))
  /\ socket_onmessage [Sample.first_message "hi"] (Sample.first_message "again")
     = [Sample.first_message "hi"].
Proof.
  assert (H : NoDup (map msg_id [Sample.first_message "hi"])).
  { apply NoDup_singleton. }
  split; [exact H |]. split; [| reflexivity].
  exact (proj1 (client_view_shows_each_id_once [Sample.first_message "hi"]
                  (Sample.first_message "again")) H).
Defined.

(** X12. However the relay pushes a message (once to the submitter, or twice
    to the same socket when a user writes to themselves), the view of any
    socket gains it at most once: feeding the pushes of one handler run to
    the client's updater is feeding it the first of them. *)
Theorem pushed_message_is_shown_once {lib : Libraries}
    rs ws data now userId g u' g' effects c prev :
  on_message rs ws data now userId g = Returns (u', g', effects) ->
  fold_left socket_onmessage (pushed_to c effects) prev
  = match pushed_to c effects with
    | [] => prev
    | m :: _ => socket_onmessage prev m
    end.
Proof.
  intros H.
  destruct (on_message_effects _ _ _ _ _ _ _ _ _ H)
    as [-> | [-> | (m & [-> | (r & ->)])]]; unfold pushed_to; simpl;
    try reflexivity.
  - destruct (Nat.eqb ws c); reflexivity.
  - destruct (Nat.eqb r c), (Nat.eqb ws c); simpl; try reflexivity.
    apply socket_onmessage_twice.
Qed.

Lemma pushed_message_is_shown_once_witness :
  Sample.on_message (fun _ => OPEN) 0%nat (Sample.send_text "hi") Sample.noon
    (Some 2)
    {| clients := {[ 2 := 0%nat ]}; db := db (shared Sample.two_users) |}
  = Returns (Some 2,
             {| clients := {[ 2 := 0%nat ]};
                db := {| users := {[1; 2]};
                         messages := [Sample.row 1 2 2 "hi" "2024-05-01 12:00:00"];
                         sqlite_sequence := 1; foreign_keys := true |} |},
             [Send 0%nat {| msg_id := 1; msg_sender_id := 2;
                            msg_receiver_id := Num 2; msg_content := Str "hi";
                            msg_timestamp := "2024-05-01T12:00:00.250Z" |};
              Send 0%nat {| msg_id := 1; msg_sender_id := 2;
                            msg_receiver_id := Num 2; msg_content := Str "hi";
                            msg_timestamp := "2024-05-01T12:00:00.250Z" |}])
  /\ fold_left socket_onmessage
       (pushed_to 0%nat
          [Send 0%nat {| msg_id := 1; msg_sender_id := 2;
                         msg_receiver_id := Num 2; msg_content := Str "hi";
                         msg_timestamp := "2024-05-01T12:00:00.250Z" |};
           Send 0%nat {| msg_id := 1; msg_sender_id := 2;
                         msg_receiver_id := Num 2; msg_content := Str "hi";
                         msg_timestamp := "2024-05-01T12:00:00.250Z" |}]) []
     = [{| msg_id := 1; msg_sender_id := 2; msg_receiver_id := Num 2;
           msg_content := Str "hi";
           msg_timestamp := "2024-05-01T12:00:00.250Z" |}].
Proof.
  split; [reflexivity |].
  exact (pushed_message_is_shown_once (lib := Sample.libraries)
           (fun _ => OPEN) 0%nat (Sample.send_text "hi") Sample.noon (Some 2)
           {| clients := {[ 2 := 0%nat ]}; db := db (shared Sample.two_users) |}
           _ _ _ 0%nat [] eq_refl).
Defined.

(** * Accounts *)

Section AccountFacts.

Context {lib : Libraries} {cred : Credentials}.

Lemma users_largest_rowid_bound (tbl : list Users.row) :
  0 <= Users.largest_rowid tbl
  /\ Forall (fun r => Users.id r <= Users.largest_rowid tbl) tbl.
Proof.
  induction tbl as [| r tbl [IH0 IH]]; simpl; split; try lia;
    constructor; [lia |].
  eapply Forall_impl; [exact IH |]. simpl. intros x Hx. lia.
Qed.

(** The slots that come last are bound last, after the values of the slots
    before them. *)
Lemma bind_slots_app n s1 s2 : forall index bound_object xs,
  bind_slots n index bound_object (s1 ++ s2) = Returns xs ->
  exists xs1 xs2 bound_object',
    xs = xs1 ++ xs2
    /\ bind_slots n (index + length xs1) bound_object' s2 = Returns xs2.
Proof.
  induction s1 as [| [v |] s1 IH]; intros index bound_object xs; simpl;
    unfold mbind, outcome_bind.
  - intros H. exists [], xs, bound_object. simpl. rewrite Nat.add_0_r. auto.
  - destruct (bind_value v) as [x |]; [| discriminate].
    destruct (n <=? index)%nat; [discriminate |].
    destruct (bind_slots n (S index) bound_object (s1 ++ s2)) as [xs' |] eqn:E;
      [| discriminate].
    intros [= <-]. destruct (IH _ _ _ E) as (xs1 & xs2 & b' & -> & H).
    exists (x :: xs1), xs2, b'. simpl. split; [reflexivity |].
    now rewrite Nat.add_succ_r.
  - destruct bound_object; [discriminate |]. apply IH.
Qed.

(** When the three parameters of the INSERT are bound, the username has
    given one value, and the hash and the avatar are the two that follow. *)
Lemma bind_arguments_username username hashedPassword avatar bound :
  bind_arguments 3 [username; Str hashedPassword; Str avatar] = Returns bound ->
  exists name, bound = [name; SqlText hashedPassword; SqlText avatar].
Proof.
  unfold bind_arguments. intros H.
  pose proof (bind_slots_length _ _ _ _ _ H ltac:(lia)) as Hlen.
  change (concat (map slots_of [username; Str hashedPassword; Str avatar]))
    with (slots_of username
          ++ [Positional (Str hashedPassword); Positional (Str avatar)]) in H.
  destruct (bind_slots_app _ _ _ _ _ _ H) as (xs1 & xs2 & b' & -> & H2).
  simpl in H2. unfold mbind, outcome_bind in H2.
  repeat case_match; simplify_eq.
  rewrite length_app in Hlen. simpl in Hlen.
  destruct xs1 as [| name [| ? ?]]; simpl in Hlen; try lia. eauto.
Qed.

(** A successful INSERT appends one row under a fresh, positive id, with a
    username no row had. *)
Lemma insert_user_returns t username hashedPassword avatar t' rowid :
  insert_user t username hashedPassword avatar = Returns (t', rowid) ->
  exists name,
    bind_arguments 3 [username; Str hashedPassword; Str avatar]
      = Returns [name; SqlText hashedPassword; SqlText avatar]
    /\ username_taken (Users.rows t) (text_affinity name) = false
    /\ 0 < rowid
    /\ Forall (fun r => Users.id r < rowid) (Users.rows t)
    /\ t' = {| Users.rows := Users.rows t ++
                 [{| Users.id := rowid; Users.username := text_affinity name;
                     Users.password := hashedPassword;
                     Users.avatar := avatar |}];
               Users.sqlite_sequence := rowid |}.
Proof.
  unfold insert_user, mbind, outcome_bind.
  destruct (bind_arguments 3 _) as [bound |] eqn:Hb; [| discriminate].
  destruct (bind_arguments_username _ _ _ _ Hb) as (name & ->).
  destruct (max_rowid <=? _); [discriminate |].
  destruct (username_taken _ _) eqn:Htaken; [discriminate |].
  intros [= <- <-]. exists name.
  destruct (users_largest_rowid_bound (Users.rows t)) as [H0 Hb'].
  split; [reflexivity |]. split; [exact Htaken |]. split; [lia |].
  split; [| reflexivity].
  eapply Forall_impl; [exact Hb' |]. simpl. intros x Hx. lia.
Qed.

Lemma signup_inv username password salt iat t t' answer :
  signup username password salt iat t = (t', answer) ->
  (t' = t /\ answer = Status 400 "Username already exists")
  \/ exists hashedPassword rowid,
       bcrypt_hashSync salt password = Some hashedPassword
       /\ insert_user t username hashedPassword
            ("https://api.dicebear.com/7.x/avataaars/svg?seed="
               ++ template_text username)%string = Returns (t', rowid)
       /\ answer = Authenticated (jwt_sign iat (js_number rowid) username)
                     (js_number rowid) username
                     ("https://api.dicebear.com/7.x/avataaars/svg?seed="
                        ++ template_text username)%string.
Proof.
  unfold signup.
  destruct (bcrypt_hashSync salt password) as [h |]; [| intros [= <- <-]; auto].
  destruct (insert_user _ _ _ _) as [[t1 rowid] |] eqn:Hi;
    intros [= <- <-]; [right; eauto | auto].
Qed.

(** The second revision stores and answers what the first does, when it
    answers with an account. *)
Lemma signup_2_authenticated username password salt iat t t' token i name avatar :
  signup_2 username password salt iat t = (t', Authenticated token i name avatar) ->
  signup username password salt iat t = (t', Authenticated token i name avatar).
Proof.
  unfold signup_2, signup.
  destruct (negb (truthy_value username) || negb (truthy_value password));
    [discriminate |].
  destruct (bcrypt_hashSync salt password) as [h |]; [| discriminate].
  destruct (insert_user _ _ _ _) as [[t1 rowid] | e]; [auto |].
  destruct e as [| | | code]; try discriminate.
  destruct (String.eqb code _); discriminate.
Qed.

(** What [/api/login] answers with an account does not depend on the text
    of its 401. *)
Lemma login_with_authenticated unauthorized unauthorized' username password iat t
    token i name avatar :
  login_with unauthorized username password iat t
    = Returns (Authenticated token i name avatar) ->
  login_with unauthorized' username password iat t
  = Returns (Authenticated token i name avatar).
Proof.
  unfold login_with, mbind, outcome_bind.
  destruct (select_user t username) as [[user |] |]; try discriminate.
  destruct (bcrypt_compareSync password (Users.password user)) as [[|] |];
    try discriminate.
  auto.
Qed.

Lemma username_taken_false tbl name :
  username_taken tbl name = false ->
  forall r, r ∈ tbl -> sql_eq (Users.username r) name = false.
Proof.
  unfold username_taken. intros H r Hr.
  destruct (sql_eq (Users.username r) name) eqn:E; [| reflexivity].
  assert (Ht : existsb (fun r => sql_eq (Users.username r) name) tbl = true).
  { apply existsb_exists. exists r. split; [now apply list_elem_of_In | exact E]. }
  congruence.
Qed.

Lemma sql_eq_text_refl s : sql_eq (SqlText s) (SqlText s) = true.
Proof. simpl. apply String.eqb_refl. Qed.

End AccountFacts.

(** X13. [/api/signup] of the first revision has one answer for every
    failure: whether the password cannot be hashed, the INSERT raises
    anything at all, or the username (given as a string, or as an array that
    holds one string, which the driver spreads) is taken, it answers 400
    "Username already exists" and leaves the table as it was.  The second
    revision refuses a falsy username or password with its own 400, and
    whatever error it answers with, 400 or 500, it leaves the table as it
    was too. *)
Theorem signup_failure_leaves_the_table {lib : Libraries} {cred : Credentials}
    username password salt iat t :
  (forall t' code error,
      signup username password salt iat t = (t', Status code error) ->
      t' = t /\ code = 400%nat /\ error = "Username already exists"%string)
  /\ (bcrypt_hashSync salt password = None ->
      signup username password salt iat t
      = (t, Status 400 "Username already exists"))
  /\ (forall hashedPassword e,
        bcrypt_hashSync salt password = Some hashedPassword ->
        insert_user t username hashedPassword
          ("https://api.dicebear.com/7.x/avataaars/svg?seed="
             ++ template_text username)%string = Throws e ->
        signup username password salt iat t
        = (t, Status 400 "Username already exists"))
  /\ (forall s r,
        username = Str s \/ username = Arr [Str s] ->
        r ∈ Users.rows t -> Users.username r = SqlText s ->
        signup username password salt iat t
        = (t, Status 400 "Username already exists"))
  /\ (forall t' code error,
        signup_2 username password salt iat t = (t', Status code error) ->
        t' = t /\ (code = 400%nat \/ code = 500%nat))
  /\ (truthy_value username = false \/ truthy_value password = false ->
      signup_2 username password salt iat t
      = (t, Status 400 "Username and password are required")).
Proof.
  split; [| split; [| split; [| split; [| split]]]].
  - intros t' code error H.
    destruct (signup_inv _ _ _ _ _ _ _ H) as [[-> [= -> ->]] | (? & ? & _ & _ & ?)];
      [auto | discriminate].
  - unfold signup. now intros ->.
  - unfold signup. now intros h e -> ->.
  - intros s r Hname Hr Hrow. unfold signup, insert_user, mbind, outcome_bind.
    destruct (bcrypt_hashSync salt password); [| reflexivity].
    assert (Hb : forall h a,
              bind_arguments 3 [username; Str h; Str a]
              = Returns [SqlText s; SqlText h; SqlText a]).
    { intros h a. destruct Hname as [-> | ->]; reflexivity. }
    rewrite Hb. cbn [text_affinity].
    destruct (max_rowid <=? _); [reflexivity |].
    assert (Ht : username_taken (Users.rows t) (SqlText s) = true).
    { apply existsb_exists. exists r. split; [now apply list_elem_of_In |].
      rewrite Hrow. apply sql_eq_text_refl. }
    now rewrite Ht.
  - intros t' code error. unfold signup_2.
    destruct (negb (truthy_value username) || negb (truthy_value password));
      [intros [= <- <- <-]; auto |].
    destruct (bcrypt_hashSync salt password) as [h |];
      [| intros [= <- <- <-]; auto].
    destruct (insert_user _ _ _ _) as [[t1 rowid] | e]; [discriminate |].
    destruct e as [| | | c]; try (intros [= <- <- <-]; auto).
    destruct (String.eqb c _); intros [= <- <- <-]; auto.
  - unfold signup_2. intros [-> | ->]; [reflexivity |].
    now rewrite orb_true_r.
Qed.

Lemma signup_failure_leaves_the_table_witness :
  SampleAccounts.signup (Str "alice") (Str "rabbit") "salt-c" 1714564900
    SampleAccounts.two_accounts
  = (SampleAccounts.two_accounts, Status 400 "Username already exists")
  /\ SampleAccounts.signup (Str "carol") Undefined "salt-c" 1714564900
       SampleAccounts.two_accounts
     = (SampleAccounts.two_accounts, Status 400 "Username already exists")
  /\ signup_2 (lib := Sample.libraries) (cred := SampleAccounts.credentials)
       Undefined (Str "rabbit") "salt-c" 1714564900 SampleAccounts.two_accounts
     = (SampleAccounts.two_accounts,
        Status 400 "Username and password are required").
Proof.
  split; [| split].
  - apply (proj1 (proj2 (proj2 (proj2 (signup_failure_leaves_the_table
             (lib := Sample.libraries) (cred := SampleAccounts.credentials)
             (Str "alice") (Str "rabbit") "salt-c" 1714564900
             SampleAccounts.two_accounts))))
             "alice"%string
             {| Users.id := 1; Users.username := SqlText "alice";
                Users.password := "$2a$10$salt-a.wonderland";
                Users.avatar :=
                  "https://api.dicebear.com/7.x/avataaars/svg?seed=alice" |}).
    + now left.
    + apply elem_of_cons. now left.
    + reflexivity.
  - apply (proj1 (proj2 (signup_failure_leaves_the_table
             (lib := Sample.libraries) (cred := SampleAccounts.credentials)
             (Str "carol") Undefined "salt-c" 1714564900
             SampleAccounts.two_accounts))).
    reflexivity.
  - apply (proj2 (proj2 (proj2 (proj2 (proj2 (signup_failure_leaves_the_table
             (lib := Sample.libraries) (cred := SampleAccounts.credentials)
             Undefined (Str "rabbit") "salt-c" 1714564900
             SampleAccounts.two_accounts)))))).
    now left.
Defined.

(** X14. A signup that succeeds, in either revision, appends exactly one
    row: its id is positive and greater than every id of the table, its
    username is what the driver bound for the one asked for (NULL for a
    missing one in the first revision, the element of a one-element array)
    and was not in the table, its password column holds what [hashSync]
    returned, and the answer carries the JavaScript number of the id, which
    is the id itself up to 2^53, and a token signed for it. *)
Theorem signup_success_appends_a_fresh_account
    {lib : Libraries} {cred : Credentials}
    username password salt iat t t' token i name avatar :
  signup username password salt iat t = (t', Authenticated token i name avatar)
  \/ signup_2 username password salt iat t
     = (t', Authenticated token i name avatar) ->
  exists row hashedPassword bound,
    Users.rows t' = Users.rows t ++ [row]
    /\ i = js_number (Users.id row)
    /\ (Users.id row <= 2 ^ 53 -> i = Users.id row)
    /\ 0 < Users.id row /\ 0 < i
    /\ Forall (fun r => Users.id r < Users.id row) (Users.rows t)
    /\ bind_arguments 3 [username; Str hashedPassword; Str avatar]
       = Returns [bound; SqlText hashedPassword; SqlText avatar]
    /\ Users.username row = text_affinity bound
    /\ (forall r, r ∈ Users.rows t ->
                  sql_eq (Users.username r) (Users.username row) = false)
    /\ bcrypt_hashSync salt password = Some hashedPassword
    /\ Users.password row = hashedPassword
    /\ Users.avatar row = avatar
    /\ name = username
    /\ token = jwt_sign iat i username.
Proof.
  intros H.
  assert (H1 : signup username password salt iat t
               = (t', Authenticated token i name avatar)).
  { destruct H as [H | H]; [exact H | now apply signup_2_authenticated]. }
  clear H.
  destruct (signup_inv _ _ _ _ _ _ _ H1) as [[_ ?] | (h & rowid & Hh & Hi & He)];
    [discriminate |].
  injection He as -> -> -> ->.
  destruct (insert_user_returns _ _ _ _ _ _ Hi)
    as (bound & Hb & Htaken & Hpos & Hlt & ->).
  eexists _, h, bound. simpl.
  split; [reflexivity |]. split; [reflexivity |].
  split.
  { simpl. intros Hle. apply js_number_exact.
    change (2 ^ 53) with 9007199254740992 in *. lia. }
  simpl.
  split; [exact Hpos |]. split; [now apply js_number_pos |].
  split; [exact Hlt |]. split; [exact Hb |]. split; [reflexivity |].
  split; [now apply username_taken_false |].
  repeat split; try assumption; reflexivity.
Qed.

Lemma signup_success_appends_a_fresh_account_witness :
  exists t',
    SampleAccounts.signup (Str "carol") (Str "singer") "salt-c" 1714564900
      SampleAccounts.two_accounts
    = (t', Authenticated "token-of-3" 3 (Str "carol")
             "https://api.dicebear.com/7.x/avataaars/svg?seed=carol")
    /\ exists row hashedPassword,
         Users.rows t' = Users.rows SampleAccounts.two_accounts ++ [row]
         /\ 3 = js_number (Users.id row)
         /\ Users.username row = SqlText "carol"
         /\ bcrypt_hashSync (Credentials := SampleAccounts.credentials)
              "salt-c" (Str "singer") = Some hashedPassword
         /\ Users.password row = hashedPassword.
Proof.
  eexists. split; [reflexivity |].
  destruct (signup_success_appends_a_fresh_account
              (lib := Sample.libraries) (cred := SampleAccounts.credentials)
              (Str "carol") (Str "singer") "salt-c" 1714564900
              SampleAccounts.two_accounts _ _ _ _ _ (or_introl eq_refl))
    as (row & h & bound & Hrows & Hid & _ & _ & _ & _ & Hb & Hname & _ & Hh
        & Hp & _).
  exists row, h. injection Hb as <-.
  split; [exact Hrows |]. split; [exact Hid |]. split; [exact Hname |].
  split; [exact Hh | exact Hp].
Defined.

Section AccountInvariants.

Context {lib : Libraries} {cred : Credentials}.

Lemma usernames_unique_snoc tbl row :
  usernames_unique tbl ->
  (forall r, r ∈ tbl -> sql_eq (Users.username r) (Users.username row) = false) ->
  usernames_unique (tbl ++ [row]).
Proof.
  intros Hu Hnew i j r r' s Hi Hj Hr Hr'.
  apply lookup_app_Some in Hi as [Hi | [Hli Hi]];
    apply lookup_app_Some in Hj as [Hj | [Hlj Hj]].
  - exact (Hu i j r r' s Hi Hj Hr Hr').
  - apply list_lookup_singleton_Some in Hj as [_ <-].
    assert (Hin : r ∈ tbl) by (apply list_elem_of_lookup; eauto).
    specialize (Hnew r Hin). rewrite Hr, Hr', sql_eq_text_refl in Hnew.
    discriminate.
  - apply list_lookup_singleton_Some in Hi as [_ <-].
    assert (Hin : r' ∈ tbl) by (apply list_elem_of_lookup; eauto).
    specialize (Hnew r' Hin). rewrite Hr, Hr', sql_eq_text_refl in Hnew.
    discriminate.
  - apply list_lookup_singleton_Some in Hi as [Hi _].
    apply list_lookup_singleton_Some in Hj as [Hj _]. lia.
Qed.

Lemma users_by_rowid_snoc (tbl : list Users.row) (row : Users.row) :
  StronglySorted (fun r r' => Users.id r < Users.id r') tbl ->
  Forall (fun r => Users.id r < Users.id row) tbl ->
  StronglySorted (fun r r' => Users.id r < Users.id r') (tbl ++ [row]).
Proof.
  induction 1 as [| x tbl Hs IH Hx]; intros Hr; simpl.
  - repeat constructor.
  - inversion Hr; subst. constructor; [now apply IH |].
    apply Forall_app. split; [exact Hx |]. now repeat constructor.
Qed.

Lemma signup_keeps_invariants username password salt iat t :
  usernames_unique (Users.rows t) ->
  StronglySorted (fun r r' => Users.id r < Users.id r') (Users.rows t) ->
  usernames_unique (Users.rows (signup username password salt iat t).1)
  /\ StronglySorted (fun r r' => Users.id r < Users.id r')
       (Users.rows (signup username password salt iat t).1)
  /\ Users.rows t `prefix_of` Users.rows (signup username password salt iat t).1.
Proof.
  intros Hu Hs.
  destruct (signup username password salt iat t) as [t' answer] eqn:E. simpl.
  destruct (signup_inv _ _ _ _ _ _ _ E) as [[-> _] | (h & rowid & _ & Hi & _)];
    [auto |].
  destruct (insert_user_returns _ _ _ _ _ _ Hi)
    as (bound & _ & Htaken & _ & Hlt & ->).
  simpl. split; [| split].
  - apply usernames_unique_snoc; [exact Hu |]. simpl.
    now apply username_taken_false.
  - now apply users_by_rowid_snoc.
  - now apply prefix_app_r.
Qed.

End AccountInvariants.

(** X15. Over any sequence of signup requests the usernames of the table
    stay pairwise different, the ids stay strictly increasing in table
    order, and no account that exists is removed or changed. *)
Theorem signups_keep_usernames_unique {lib : Libraries} {cred : Credentials}
    requests : forall t,
  usernames_unique (Users.rows t) ->
  StronglySorted (fun r r' => Users.id r < Users.id r') (Users.rows t) ->
  usernames_unique (Users.rows (signups requests t))
  /\ StronglySorted (fun r r' => Users.id r < Users.id r')
       (Users.rows (signups requests t))
  /\ Users.rows t `prefix_of` Users.rows (signups requests t).
Proof.
  induction requests as [| [[[username password] salt] iat] requests IH];
    intros t Hu Hs; simpl; [auto |].
  destruct (signup_keeps_invariants username password salt iat t Hu Hs)
    as (Hu' & Hs' & Hp').
  destruct (IH _ Hu' Hs') as (Hu'' & Hs'' & Hp'').
  split; [exact Hu'' |]. split; [exact Hs'' |]. now transitivity
    (Users.rows (signup username password salt iat t).1).
Qed.

Lemma signups_keep_usernames_unique_witness :
  usernames_unique (Users.rows Users.empty)
  /\ StronglySorted (fun r r' => Users.id r < Users.id r')
       (Users.rows Users.empty)
  /\ usernames_unique (Users.rows SampleAccounts.two_accounts)
  /\ StronglySorted (fun r r' => Users.id r < Users.id r')
       (Users.rows SampleAccounts.two_accounts).
Proof.
  assert (Hu : usernames_unique (Users.rows Users.empty)).
  { intros i j r r' s Hi. simpl in Hi. rewrite lookup_nil in Hi. discriminate. }
  assert (Hs : StronglySorted (fun r r' => Users.id r < Users.id r')
                 (Users.rows Users.empty)).
  { constructor. }
  split; [exact Hu |]. split; [exact Hs |].
  destruct (signups_keep_usernames_unique
              (lib := Sample.libraries) (cred := SampleAccounts.credentials)
              [(Str "alice", Str "wonderland", "salt-a"%string, 1714564800);
               (Str "bob", Str "builder", "salt-b"%string, 1714564801)]
              Users.empty Hu Hs) as (H1 & H2 & _).
  split; [exact H1 | exact H2].
Defined.

(** X16. Signing up and then logging in with the same username and
    password, when [compareSync] recognises the hash [hashSync] made, is
    answered with the id, the username and the avatar the signup
    answered. *)
Theorem login_after_signup {lib : Libraries} {cred : Credentials}
    s password salt iat iat' t t' token i name avatar hashedPassword :
  signup (Str s) password salt iat t = (t', Authenticated token i name avatar) ->
  bcrypt_hashSync salt password = Some hashedPassword ->
  bcrypt_compareSync password hashedPassword = Some true ->
  login (Str s) password iat' t'
  = Returns (Authenticated (jwt_sign iat' i (Str s)) i name avatar).
Proof.
  intros H Hh Hc.
  destruct (signup_inv _ _ _ _ _ _ _ H) as [[_ ?] | (h & rowid & Hh' & Hi & He)];
    [discriminate |].
  injection He as -> -> -> ->. rewrite Hh in Hh'. injection Hh' as <-.
  destruct (insert_user_returns _ _ _ _ _ _ Hi)
    as (bound & Hb & Htaken & _ & _ & ->).
  injection Hb as <-. simpl in Htaken.
  unfold login, login_with, select_user, mbind, outcome_bind. simpl.
  assert (Hfind : forall l (x : Users.row),
            (forall r, r ∈ l -> sql_eq (Users.username r) (SqlText s) = false) ->
            Users.username x = SqlText s ->
            List.find (fun r => sql_eq (Users.username r) (SqlText s)) (l ++ [x])
            = Some x).
  { induction l as [| r l IH]; intros x Hl Hx; simpl.
    - now rewrite Hx, sql_eq_text_refl.
    - rewrite (Hl r) by (apply elem_of_cons; now left).
      apply IH; [| exact Hx]. intros r' Hr'. apply Hl. apply elem_of_cons. now right. }
  rewrite Hfind; [| now apply username_taken_false | reflexivity].
  simpl. now rewrite Hc.
Qed.

Lemma login_after_signup_witness :
  exists t',
    SampleAccounts.signup (Str "carol") (Str "singer") "salt-c" 1714564900
      SampleAccounts.two_accounts
    = (t', Authenticated "token-of-3" 3 (Str "carol")
             "https://api.dicebear.com/7.x/avataaars/svg?seed=carol")
    /\ SampleAccounts.login (Str "carol") (Str "singer") 1714565000 t'
       = Returns (Authenticated "token-of-3" 3 (Str "carol")
                    "https://api.dicebear.com/7.x/avataaars/svg?seed=carol").
Proof.
  eexists. split; [reflexivity |].
  exact (login_after_signup
           (lib := Sample.libraries) (cred := SampleAccounts.credentials)
           "carol" (Str "singer") "salt-c" 1714564900 1714565000
           SampleAccounts.two_accounts _ _ _ _ _
           "$2a$10$salt-c.singer" eq_refl eq_refl eq_refl).
Defined.

(** X17. [/api/login] answers with an account only for a stored row whose
    username equals what the driver bound for the one given and whose hash
    [compareSync] accepts for the password given, and what it answers is
    the JavaScript number of that row's id, its username and its avatar.  A
    username no row has, null or a missing one included, is answered 401;
    an array that holds one string is spread and answered as that string
    is.  The second revision answers with an account exactly when the first
    does, and with the same one. *)
Theorem login_answers_for_a_stored_account {lib : Libraries} {cred : Credentials}
    username password iat t :
  (forall token i name avatar,
      login username password iat t
      = Returns (Authenticated token i name avatar) ->
      exists row bound,
        row ∈ Users.rows t
        /\ bind_arguments 1 [username] = Returns [bound]
        /\ sql_eq (Users.username row) (text_affinity bound) = true
        /\ bcrypt_compareSync password (Users.password row) = Some true
        /\ i = js_number (Users.id row)
        /\ (- 2 ^ 53 <= Users.id row <= 2 ^ 53 -> i = Users.id row)
        /\ name = js_of_sql (Users.username row)
        /\ avatar = Users.avatar row
        /\ token = jwt_sign iat i name)
  /\ (forall bound,
        bind_arguments 1 [username] = Returns [bound] ->
        (forall r, r ∈ Users.rows t ->
                   sql_eq (Users.username r) (text_affinity bound) = false) ->
        login username password iat t
        = Returns (Status 401 "Invalid credentials"))
  /\ (username = Null \/ username = Undefined ->
      login username password iat t = Returns (Status 401 "Invalid credentials"))
  /\ (forall s, username = Arr [Str s] ->
                login username password iat t = login (Str s) password iat t)
  /\ (forall token i name avatar,
        login_2 username password iat t = Authenticated token i name avatar
        <-> login username password iat t
            = Returns (Authenticated token i name avatar)).
Proof.
  assert (Hnone : forall bound,
    bind_arguments 1 [username] = Returns [bound] ->
    (forall r, r ∈ Users.rows t ->
               sql_eq (Users.username r) (text_affinity bound) = false) ->
    login username password iat t = Returns (Status 401 "Invalid credentials")).
  { intros bound Hb Hno.
    unfold login, login_with, select_user, mbind, outcome_bind.
    rewrite Hb.
    destruct (List.find _ (Users.rows t)) as [user |] eqn:Hf; [| reflexivity].
    apply List.find_some in Hf as [Hin Hm].
    rewrite (Hno user) in Hm by now apply list_elem_of_In. discriminate. }
  split; [| split; [| split; [| split]]].
  - intros token i name avatar.
    unfold login, login_with, select_user, mbind, outcome_bind.
    destruct (bind_arguments 1 [username]) as [bound |]; [| discriminate].
    destruct bound as [| bound [| ? ?]]; try discriminate.
    destruct (List.find _ (Users.rows t)) as [user |] eqn:Hf; [| discriminate].
    apply List.find_some in Hf as [Hin Hm].
    destruct (bcrypt_compareSync password (Users.password user)) as [[|] |] eqn:Hc;
      try discriminate.
    intros [= <- <- <- <-]. exists user, bound.
    split; [now apply list_elem_of_In |]. split; [reflexivity |].
    split; [exact Hm |]. split; [exact Hc |]. split; [reflexivity |].
    split; [apply js_number_exact |]. repeat split.
  - exact Hnone.
  - intros Hu. apply (Hnone SqlNull); [destruct Hu as [-> | ->]; reflexivity |].
    intros r _. simpl. now destruct (Users.username r).
  - now intros s ->.
  - intros token i name avatar. unfold login_2, login. split.
    + destruct (login_with _ username password iat t) as [answer |] eqn:E;
        [| discriminate].
      intros ->. eapply login_with_authenticated. exact E.
    + intros E.
      now rewrite (login_with_authenticated _
                     "Неверное имя пользователя или пароль" _ _ _ _ _ _ _ _ E).
Qed.

Lemma login_answers_for_a_stored_account_witness :
  SampleAccounts.login (Str "bob") (Str "builder") 1714565000
    SampleAccounts.two_accounts
  = Returns (Authenticated "token-of-2" 2 (Str "bob")
               "https://api.dicebear.com/7.x/avataaars/svg?seed=bob")
  /\ (exists row bound,
         row ∈ Users.rows SampleAccounts.two_accounts
         /\ bind_arguments 1 [Str "bob"] = Returns [bound]
         /\ sql_eq (Users.username row)
              (text_affinity (lib := Sample.libraries) bound) = true
         /\ bcrypt_compareSync (Credentials := SampleAccounts.credentials)
              (Str "builder") (Users.password row) = Some true
         /\ 2 = js_number (Users.id row))
  /\ SampleAccounts.login Undefined (Str "builder") 1714565000
       SampleAccounts.two_accounts
     = Returns (Status 401 "Invalid credentials")
  /\ SampleAccounts.login (Arr [Str "bob"]) (Str "builder") 1714565000
       SampleAccounts.two_accounts
     = SampleAccounts.login (Str "bob") (Str "builder") 1714565000
         SampleAccounts.two_accounts.
Proof.
  split; [reflexivity |]. split; [| split].
  - destruct (proj1 (login_answers_for_a_stored_account
                (lib := Sample.libraries) (cred := SampleAccounts.credentials)
                (Str "bob") (Str "builder") 1714565000
                SampleAccounts.two_accounts) _ _ _ _ eq_refl)
      as (row & bound & H1 & H2 & H3 & H4 & H5 & _).
    exists row, bound. auto.
  - exact (proj1 (proj2 (proj2 (login_answers_for_a_stored_account
                (lib := Sample.libraries) (cred := SampleAccounts.credentials)
                Undefined (Str "builder") 1714565000
                SampleAccounts.two_accounts))) (or_intror eq_refl)).
  - exact (proj1 (proj2 (proj2 (proj2 (login_answers_for_a_stored_account
                (lib := Sample.libraries) (cred := SampleAccounts.credentials)
                (Arr [Str "bob"]) (Str "builder") 1714565000
                SampleAccounts.two_accounts)))) "bob"%string eq_refl).
Defined.

(** X18. [/api/users] answers with rows only to a token that verifies, and
    then lists exactly the accounts whose id is not the one the token
    names, their ids read as JavaScript numbers: the caller is never listed
    and nobody else is left out.  A token that verifies but names no user
    is answered with the empty list; without a token the answer is 401
    Unauthorized, with one that does not verify 401 Invalid token. *)
Theorem users_route_lists_everyone_but_the_caller {lib : Libraries} token t :
  (forall listed,
      get_api_users token t = UsersJson listed ->
      exists tok decoded,
        token = Some tok /\ tok <> ""%string
        /\ jwt_verify (Str tok) = Some decoded
        /\ forall entry,
             entry ∈ listed
             <-> exists a r,
                   decoded = Some a /\ r ∈ Users.rows t /\ Users.id r <> a
                   /\ entry = (js_number (Users.id r), Users.username r,
                               Users.avatar r))
  /\ (token = None \/ token = Some ""%string ->
      get_api_users token t = UsersStatus 401 "Unauthorized")
  /\ (forall tok, token = Some tok -> tok <> ""%string ->
                  jwt_verify (Str tok) = None ->
                  get_api_users token t = UsersStatus 401 "Invalid token")
  /\ (forall tok, token = Some tok -> tok <> ""%string ->
                  jwt_verify (Str tok) = Some None ->
                  get_api_users token t = UsersJson []).
Proof.
  unfold get_api_users. split; [| split; [| split]].
  - intros listed. destruct token as [tok |]; [| discriminate].
    destruct (String.eqb tok "") eqn:Et; [discriminate |].
    destruct (jwt_verify (Str tok)) as [decoded |] eqn:Hv; [| discriminate].
    intros H. exists tok, decoded. split; [reflexivity |].
    split; [now apply String.eqb_neq |]. split; [exact Hv |].
    destruct decoded as [a |]; simpl in H; injection H as <-.
    + intros entry. rewrite list_elem_of_In, in_map_iff. split.
      * intros (r & <- & Hr). apply List.filter_In in Hr as [Hr Hne].
        apply negb_true_iff, Z.eqb_neq in Hne.
        exists a, r. split; [reflexivity |].
        split; [now apply list_elem_of_In |]. split; [exact Hne | reflexivity].
      * intros (a' & r & [= <-] & Hr & Hne & ->). exists r.
        split; [reflexivity |].
        apply List.filter_In. split; [now apply list_elem_of_In |].
        now apply negb_true_iff, Z.eqb_neq.
    + intros entry. split; [intros Hin; now apply elem_of_nil in Hin |].
      intros (a & r & ? & _); discriminate.
  - intros [-> | ->]; reflexivity.
  - intros tok -> Ht Hv. apply String.eqb_neq in Ht. now rewrite Ht, Hv.
  - intros tok -> Ht Hv. apply String.eqb_neq in Ht. now rewrite Ht, Hv.
Qed.

Lemma users_route_lists_everyone_but_the_caller_witness :
  get_api_users (lib := Sample.libraries) (Some "token-of-1"%string)
    SampleAccounts.two_accounts
  = UsersJson [(2, SqlText "bob",
                "https://api.dicebear.com/7.x/avataaars/svg?seed=bob"%string)]
  /\ exists tok decoded,
       Some "token-of-1"%string = Some tok /\ tok <> ""%string
       /\ jwt_verify (Libraries := Sample.libraries) (Str tok) = Some decoded.
Proof.
  split; [reflexivity |].
  destruct (proj1 (users_route_lists_everyone_but_the_caller
              (lib := Sample.libraries) (Some "token-of-1"%string)
              SampleAccounts.two_accounts) _ eq_refl)
    as (tok & decoded & H1 & H2 & H3 & _).
  exists tok, decoded. auto.
Defined.

(** X19. The token a successful signup answers with, once [jwt.verify]
    reads it back as the id it was signed for, authenticates a relay
    session: the id is a rowid, so it passes the [if (userId)] guard, and
    the socket is registered under it. *)
Theorem signup_token_authenticates_the_relay
    {lib : Libraries} {cred : Credentials}
    username password salt iat t t' token i name avatar
    rs ws data now userId g :
  signup username password salt iat t = (t', Authenticated token i name avatar) ->
  jwt_verify (Str token) = Some (Some i) ->
  auth_frame data (Str token) ->
  on_message rs ws data now userId g
  = Returns (Some i, {| clients := <[i := ws]> (clients g); db := db g |}, []).
Proof.
  intros H Hv Ha.
  destruct (signup_inv _ _ _ _ _ _ _ H) as [[_ ?] | (h & rowid & _ & Hi & He)];
    [discriminate |].
  injection He as -> -> -> ->.
  destruct (insert_user_returns _ _ _ _ _ _ Hi) as (_ & _ & _ & Hpos & _).
  apply (on_message_auth_accepted rs ws data now userId g _ _ Ha Hv).
  apply js_number_pos in Hpos. lia.
Qed.

Lemma signup_token_authenticates_the_relay_witness :
  exists t',
    SampleAccounts.signup (Str "alice") (Str "wonderland") "salt-a" 1714564800
      Users.empty
    = (t', Authenticated "token-of-1" 1 (Str "alice")
             "https://api.dicebear.com/7.x/avataaars/svg?seed=alice")
    /\ Sample.on_message (fun _ => OPEN) 0%nat (Sample.auth_text "token-of-1")
         Sample.noon None (shared Sample.two_users)
       = Returns (Some 1,
                  {| clients := <[1 := 0%nat]> (clients (shared Sample.two_users));
                     db := db (shared Sample.two_users) |}, []).
Proof.
  eexists. split; [reflexivity |].
  exact (signup_token_authenticates_the_relay
           (lib := Sample.libraries) (cred := SampleAccounts.credentials)
           (Str "alice") (Str "wonderland") "salt-a" 1714564800 Users.empty
           _ _ _ _ _ (fun _ => OPEN) 0%nat (Sample.auth_text "token-of-1")
           Sample.noon None (shared Sample.two_users)
           eq_refl eq_refl sample_auth_frame_1).
Defined.
